(** * Stellara ML pipeline: model lifecycle (train / publish / serve / schedule)

    A shallow embedding of [Backend/ml_pipeline]:
    - [model_utils.py]      [save_model], [load_model]
    - [data_processing.py]  [generate_synthetic], [load_raw], [process], [get_processed]
    - [train.py]            [train_engagement], [train_recommender], [train_all]
    - [deploy_api.py]       [predict], [recommend]
    - [scheduler.py]        [start_scheduler]

    Python statements become computations in a state-and-exception monad over
    a [World] (the files on disk, standard output, the clock and the [atexit]
    registry).  scikit-learn, numpy's random generator and Python floats are
    interfaces: the development is parametric in them. *)

From Stdlib Require Import ZArith QArith Ascii.
From stdpp Require Import base option list gmap strings pretty sorting.

Local Open Scope Z_scope.

(* ===================================================================== *)
(** ** Python exceptions and results *)
(* ===================================================================== *)

(** Every exception met on these paths derives from [Exception]; it is kept
    as its class name and message, except FastAPI's [HTTPException] which
    carries a status code and a detail. *)
Inductive exn :=
  | PyError (cls : string) (msg : string)
  | HTTPException (status_code : Z) (detail : string).

(** [str(e)], as printed by [print("...", e)]. *)
Definition str_exn (e : exn) : string :=
  match e with
  | PyError _ msg => msg
  | HTTPException c d => pretty c +:+ ": " +:+ d
  end.

Inductive result (A : Type) :=
  | Ok (a : A)
  | Raise (e : exn).
Arguments Ok {A} a.
Arguments Raise {A} e.

Definition is_ok {A} (r : result A) : bool :=
  match r with Ok _ => true | Raise _ => false end.

Definition rbind {A B} (r : result A) (k : A → result B) : result B :=
  match r with
  | Ok a => k a
  | Raise e => Raise e
  end.

(* ===================================================================== *)
(** ** External interfaces *)
(* ===================================================================== *)

(** Python floats: only carried around, formatted and truncated here. *)
Class PyFloat := {
  float : Type;
  format_3f : float → string;          (* f"{x:.3f}" *)
  int_of_float : float → Z;            (* int(x) *)
}.

(** Cells of a data frame, of a feature row, of a request. *)
Inductive cell `{PyFloat} :=
  | CInt (z : Z)
  | CFloat (x : float)
  | CStr (s : string)
  | CBool (b : bool)
  | CTime (t : Z)
  | CNaN.

Abbreviation Matrix := (list (list cell)).

(** The scikit-learn objects and calls the pipeline uses.  Each call may
    raise; fitted estimators are opaque. *)
Class Sklearn `{PyFloat} := {
  RandomForestClassifier : Type;
  StandardScaler : Type;
  NearestNeighbors : Type;
  (* train_test_split(X, y, test_size=.., random_state=..) *)
  train_test_split :
    Matrix → list Z → Q → Z → result (Matrix * Matrix * list Z * list Z);
  (* scaler = StandardScaler(); scaler.fit_transform(X) *)
  fit_transform : Matrix → result (StandardScaler * Matrix);
  (* scaler.transform(X) *)
  transform : StandardScaler → Matrix → result Matrix;
  (* RandomForestClassifier(n_estimators=.., random_state=..).fit(X, y) *)
  clf_fit : Z → Z → Matrix → list Z → result RandomForestClassifier;
  (* clf.score(X, y) *)
  score : RandomForestClassifier → Matrix → list Z → result float;
  (* clf.predict_proba(X) *)
  predict_proba : RandomForestClassifier → Matrix → result (list (list float));
  (* NearestNeighbors(n_neighbors=.., metric=..).fit(X) *)
  nn_fit : Z → string → Matrix → result NearestNeighbors;
  (* nn._fit_X *)
  _fit_X : NearestNeighbors → Matrix;
  (* nn.kneighbors(X) : (dists, nbrs) *)
  kneighbors :
    NearestNeighbors → Matrix → result (list (list float) * list (list nat));
}.

(** [numpy.random.Generator], threaded explicitly. *)
Class NumpyRng `{PyFloat} := {
  Generator : Type;
  default_rng : Z → Generator;
  integers : Z → Z → Generator → Z * Generator;
  normal : Z → Z → Generator → float * Generator;
  poisson : Z → Generator → Z * Generator;
  choice : list string → Generator → string * Generator;
}.

(* ===================================================================== *)
(** ** Paths ([os.path]) *)
(* ===================================================================== *)

Module os_path.

Definition sep : Ascii.ascii := "/"%char.

Fixpoint endswith_sep (p : string) : bool :=
  match p with
  | EmptyString => false
  | String c EmptyString => bool_decide (c = sep)
  | String _ p' => endswith_sep p'
  end.

Definition startswith_sep (p : string) : bool :=
  match p with
  | String c _ => bool_decide (c = sep)
  | EmptyString => false
  end.

(** [posixpath.join(a, b)] *)
Definition join (a b : string) : string :=
  if startswith_sep b then b
  else if bool_decide (a = "") || endswith_sep a then a +:+ b
  else a +:+ "/" +:+ b.

(** [head] of [posixpath.split]: everything up to and including the last
    separator; [None] when there is none. *)
Fixpoint head_upto_sep (p : string) : option string :=
  match p with
  | EmptyString => None
  | String c p' =>
      match head_upto_sep p' with
      | Some h => Some (String c h)
      | None => if bool_decide (c = sep) then Some (String c "") else None
      end
  end.

Fixpoint all_sep (p : string) : bool :=
  match p with
  | EmptyString => true
  | String c p' => bool_decide (c = sep) && all_sep p'
  end.

(** [s.rstrip('/')] *)
Fixpoint rstrip_sep (p : string) : string :=
  match p with
  | EmptyString => ""
  | String c p' =>
      match rstrip_sep p' with
      | EmptyString => if bool_decide (c = sep) then "" else String c ""
      | r => String c r
      end
  end.

(** [posixpath.dirname(p)] *)
Definition dirname (p : string) : string :=
  match head_upto_sep p with
  | None => ""
  | Some h => if all_sep h then h else rstrip_sep h
  end.

(** What [join] puts before a relative component. *)
Definition prefix_of (a : string) : string :=
  if bool_decide (a = "") || endswith_sep a then a else a +:+ "/".

End os_path.

(** Python's [a or b] on strings. *)
Definition str_or (a b : string) : string :=
  if bool_decide (a = "") then b else a.


(* ===================================================================== *)
(** ** Data *)
(* ===================================================================== *)

(** One event of [user_behavior.csv], as [generate_synthetic] writes it.
    Timestamps are microseconds since the epoch. *)
Record RawRow := {
  raw_user_id : string;
  raw_session_duration : Z;
  raw_pages_viewed : Z;
  raw_actions : Z;
  raw_item_id : string;
  raw_item_category : string;
  raw_timestamp : Z;
}.

(** A row of the processed frame: the raw columns without [item_category],
    the label, the hour and the one-hot indicators. *)
Record Row := {
  r_user_id : string;
  r_session_duration : Z;
  r_pages_viewed : Z;
  r_actions : Z;
  r_item_id : string;
  r_timestamp : Z;
  r_engaged : Z;
  r_hour : Z;
  r_dummies : list bool;
}.

(** The processed [DataFrame]: its one-hot column names and its rows. *)
Record DataFrame := {
  dummy_columns : list string;
  rows : list Row;
}.

Definition base_columns : list string :=
  ["user_id"; "session_duration"; "pages_viewed"; "actions"; "item_id";
   "timestamp"; "engaged"; "hour"].

(** [df.columns] *)
Definition columns (df : DataFrame) : list string :=
  base_columns ++ dummy_columns df.

(** Position of the first occurrence, [list.index]. *)
Fixpoint index_of (x : string) (l : list string) : option nat :=
  match l with
  | [] => None
  | y :: l' => if bool_decide (x = y) then Some 0%nat else S <$> index_of x l'
  end.

(** [sorted(set(l))], the order pandas gives to group keys and dummies. *)
Definition sorted_unique (l : list string) : list string :=
  merge_sort String.le (remove_dups l).

Definition bool_to_Z (b : bool) : Z := if b then 1 else 0.

(** [ts.hour] *)
Definition hour_of (t : Z) : Z := (t `div` 3600000000) `mod` 24.

(** FastAPI request bodies. *)
Record SessionPayload `{PyFloat} := {
  session_duration : float;
  pages_viewed : Z;
  actions : Z;
  hour : Z;
}.

Record RecommendRequest := {
  user_id : option string;
  item_id : option string;
}.

Inductive atexit_hook :=
  | SchedulerShutdown (wait : bool).

(* ===================================================================== *)
(** ** The monad of Python statements *)
(* ===================================================================== *)

(** A statement runs in a state [S] and either returns or raises; the state
    reached before a raise is kept, as in Python. *)
Definition St (S A : Type) : Type := S → result A * S.

Section Monad.

Context {S : Type}.

Definition ret {A} (a : A) : St S A := λ w, (Ok a, w).

Definition raise {A} (e : exn) : St S A := λ w, (Raise e, w).

Definition bind {A B} (m : St S A) (k : A → St S B) : St S B :=
  λ w, match m w with
       | (Ok a, w') => k a w'
       | (Raise e, w') => (Raise e, w')
       end.

(** A pure call that may raise. *)
Definition lift {A} (r : result A) : St S A := λ w, (r, w).

(** [try: m  except Exception as e: h e] *)
Definition try_except {A} (m : St S A) (h : exn → St S A) : St S A :=
  λ w, match m w with
       | (Ok a, w') => (Ok a, w')
       | (Raise e, w') => h e w'
       end.

End Monad.

Notation "x <- m ;; k" := (bind m (λ x, k))
  (at level 100, m at next level, right associativity).
Notation "m ;; k" := (bind m (λ _, k))
  (at level 100, right associativity).

Section Pipeline.

Context {PF : PyFloat} {SK : Sklearn} {RNG : NumpyRng}.

(** [os.path.dirname(__file__)]: the five modules sit in one directory. *)
Variable here : string.

(** Values stored in the artifact dictionaries. *)
Inductive pyval :=
  | VClf (m : RandomForestClassifier)
  | VScaler (s : StandardScaler)
  | VNN (n : NearestNeighbors)
  | VList (l : list string).

(** What a path holds: a CSV of well-formed events, a parquet frame, a
    joblib dump of a dictionary, or nothing at all (zero bytes). *)
Inductive file :=
  | CsvFile (df : list RawRow)
  | ParquetFile (df : DataFrame)
  | JoblibFile (obj : gmap string pyval)
  | EmptyFile.

Record World := mkWorld {
  fs : gmap string file;
  stdout : list string;
  utcnow : Z;
  atexit : list atexit_hook;
}.

Abbreviation Py := (St World).

Definition print (s : string) : Py unit :=
  λ w, (Ok tt, mkWorld (fs w) (stdout w ++ [s]) (utcnow w) (atexit w)).

Definition datetime_utcnow : Py Z := λ w, (Ok (utcnow w), w).

Definition atexit_register (h : atexit_hook) : Py unit :=
  λ w, (Ok tt, mkWorld (fs w) (stdout w) (utcnow w) (atexit w ++ [h])).

(* ------------------------------------------------------------------- *)
(** *** Files *)

Definition os_path_exists (path : string) : Py bool :=
  λ w, (Ok (bool_decide (is_Some (fs w !! path))), w).

(** [os.makedirs(base, exist_ok=True)]: directories are implicit in the
    path-indexed file map, so creating one changes no file. *)
Definition os_makedirs (base : string) : Py unit := ret tt.

Definition write_file (path : string) (f : file) : Py unit :=
  λ w, (Ok tt, mkWorld (<[path := f]> (fs w)) (stdout w) (utcnow w) (atexit w)).

Definition joblib_dump (obj : gmap string pyval) (path : string) : Py unit :=
  write_file path (JoblibFile obj).

(** [joblib.load(path)].  It raises on anything that is not a joblib dump;
    no property below depends on the class of that exception. *)
Definition joblib_load (path : string) : Py (gmap string pyval) :=
  λ w, match fs w !! path with
       | Some (JoblibFile obj) => (Ok obj, w)
       | Some EmptyFile => (Raise (PyError "EOFError" ""), w)
       | Some _ => (Raise (PyError "UnpicklingError" path), w)
       | None => (Raise (PyError "FileNotFoundError" path), w)
       end.

Definition to_csv (df : list RawRow) (path : string) : Py unit :=
  write_file path (CsvFile df).

(** [pd.read_csv(path, parse_dates=["timestamp"])].  It raises on anything
    that is not a CSV of events; on an empty file pandas raises
    [EmptyDataError]. *)
Definition read_csv (path : string) : Py (list RawRow) :=
  λ w, match fs w !! path with
       | Some (CsvFile df) => (Ok df, w)
       | Some EmptyFile =>
           (Raise (PyError "EmptyDataError" "No columns to parse from file"), w)
       | Some _ => (Raise (PyError "UnicodeDecodeError" path), w)
       | None => (Raise (PyError "FileNotFoundError" path), w)
       end.

Definition to_parquet (df : DataFrame) (path : string) : Py unit :=
  write_file path (ParquetFile df).

(* ------------------------------------------------------------------- *)
(** *** model_utils.py *)

Definition ensure_models_dir (base : string) : Py unit := os_makedirs base.

Definition save_model (obj : gmap string pyval) (path : string) : Py unit :=
  ensure_models_dir (str_or (os_path.dirname path) ".");;
  joblib_dump obj path.

Definition load_model (path : string) : Py (option (gmap string pyval)) :=
  ex <- os_path_exists path;;
  if negb ex then ret None
  else obj <- joblib_load path;; ret (Some obj).

(* ------------------------------------------------------------------- *)
(** *** data_processing.py *)

Definition ensure_dirs (base : string) : Py unit := os_makedirs base.

(** One iteration of the loop of [generate_synthetic]. *)
Definition synthetic_row (now : Z) (rng : Generator) : RawRow * Generator :=
  let categories := ["crypto"; "finance"; "ml"; "web3"; "misc"] in
  let '(u, rng) := integers 1 200 rng in
  let user_id := "user_" +:+ pretty u in
  let '(sl, rng) := normal 300 120 rng in
  let session_length := Z.abs (int_of_float sl) in
  let '(pg, rng) := normal 5 2 rng in
  let pages := Z.max 1 (int_of_float pg) in
  let '(ac, rng) := poisson 3 rng in
  let actions := Z.max 0 ac in
  let '(it, rng) := integers 1 200 rng in
  let item_id := "item_" +:+ pretty it in
  let '(item_cat, rng) := choice categories rng in
  let '(mins, rng) := integers 0 (60 * 24 * 30) rng in
  let ts := now - mins * 60000000 in
  ({| raw_user_id := user_id;
      raw_session_duration := session_length;
      raw_pages_viewed := pages;
      raw_actions := actions;
      raw_item_id := item_id;
      raw_item_category := item_cat;
      raw_timestamp := ts |}, rng).

(** [for i in range(n): rows.append({...})] *)
Fixpoint synthetic_rows (n : nat) (now : Z) (rng : Generator) : list RawRow :=
  match n with
  | O => []
  | S n' => let '(r, rng') := synthetic_row now rng in
            r :: synthetic_rows n' now rng'
  end.

Definition generate_synthetic (path : string) (n : nat) : Py (list RawRow) :=
  ensure_dirs (str_or (os_path.dirname path) ".");;
  let rng := default_rng 42 in
  now <- datetime_utcnow;;
  let rows := synthetic_rows n now rng in
  let df := rows in
  to_csv df path;;
  ret df.

Definition load_raw (path : option string) : Py (list RawRow) :=
  let path :=
    match path with
    | None => os_path.join (os_path.join here "data") "user_behavior.csv"
    | Some p => p
    end in
  ex <- os_path_exists path;;
  if negb ex then
    print ("Input data not found at " +:+ path +:+ ", generating synthetic sample.");;
    generate_synthetic path 1000
  else read_csv path.

Definition process (df : list RawRow) : DataFrame :=
  let cats := sorted_unique (raw_item_category <$> df) in
  {| dummy_columns := (λ c, "cat_" +:+ c) <$> cats;
     rows :=
       (λ r, {| r_user_id := raw_user_id r;
                r_session_duration := raw_session_duration r;
                r_pages_viewed := raw_pages_viewed r;
                r_actions := raw_actions r;
                r_item_id := raw_item_id r;
                r_timestamp := raw_timestamp r;
                r_engaged := bool_to_Z (300 <? raw_session_duration r);
                r_hour := hour_of (raw_timestamp r);
                r_dummies :=
                  (λ c, bool_decide (raw_item_category r = c)) <$> cats |})
       <$> df |}.

(** [df["timestamp"] = pd.to_datetime(df["timestamp"])] changes nothing
    here: timestamps are already times. *)
Definition get_processed (input_path : option string) : Py DataFrame :=
  df <- load_raw input_path;;
  let processed := process df in
  let out_dir := os_path.join here "data" in
  ensure_dirs out_dir;;
  let processed_path := os_path.join out_dir "processed.parquet" in
  to_parquet processed processed_path;;
  ret processed.

(* ------------------------------------------------------------------- *)
(** *** Frame access used by train.py *)

(** The cell of row [r] in column [c]. *)
Definition row_cell (df : DataFrame) (r : Row) (c : string) : cell :=
  if bool_decide (c = "user_id") then CStr (r_user_id r)
  else if bool_decide (c = "session_duration") then CInt (r_session_duration r)
  else if bool_decide (c = "pages_viewed") then CInt (r_pages_viewed r)
  else if bool_decide (c = "actions") then CInt (r_actions r)
  else if bool_decide (c = "item_id") then CStr (r_item_id r)
  else if bool_decide (c = "timestamp") then CTime (r_timestamp r)
  else if bool_decide (c = "engaged") then CInt (r_engaged r)
  else if bool_decide (c = "hour") then CInt (r_hour r)
  else match index_of c (dummy_columns df) with
       | Some i => from_option CBool CNaN (r_dummies r !! i)
       | None => CNaN
       end.

(** [df[cols]] *)
Definition select (df : DataFrame) (cols : list string) : Matrix :=
  (λ r, row_cell df r <$> cols) <$> rows df.

(** [X.fillna(v)] *)
Definition fillna (v : Z) (X : Matrix) : Matrix :=
  (λ row : list cell,
     (λ c, match c with CNaN => CInt v | _ => c end) <$> row) <$> X.

(** Column-wise ["max"] of a group, skipping missing cells. *)
Definition cell_max (a b : cell) : cell :=
  match a, b with
  | CNaN, _ => b
  | _, CNaN => a
  | CBool x, CBool y => CBool (x || y)
  | CInt x, CInt y => CInt (Z.max x y)
  | _, _ => a
  end.

(** A row of [df.groupby("item_id")[...].agg(...)]. *)
Record ItemRow := {
  ir_item_id : string;
  ir_cats : list cell;
  ir_user_id : nat;
}.

(** [df.groupby("item_id")[cat_cols + ["user_id"]]
       .agg({**{c: "max" for c in cat_cols}, "user_id": "nunique"})] *)
Definition groupby_item_id_agg (df : DataFrame) (cat_cols : list string)
    : list ItemRow :=
  (λ k,
     let group := filter (λ r, r_item_id r = k) (rows df) in
     {| ir_item_id := k;
        ir_cats := (λ c, foldr cell_max CNaN (flip (row_cell df) c <$> group))
                   <$> cat_cols;
        ir_user_id := length (remove_dups (r_user_id <$> group)) |})
  <$> sorted_unique (r_item_id <$> rows df).

(* ------------------------------------------------------------------- *)
(** *** train.py *)

Definition MODEL_DIR : string := os_path.join here "models".

Definition train_engagement (df : DataFrame) : Py unit :=
  let features :=
    filter (λ c, c ∉ ["user_id"; "item_id"; "timestamp"; "engaged"])
           (columns df) in
  let X := fillna 0 (select df features) in
  let y := r_engaged <$> rows df in
  split <- lift (train_test_split X y (2 # 10)%Q 42);;
  let '(X_train, X_test, y_train, y_test) := split in
  fitted <- lift (fit_transform X_train);;
  let '(scaler, X_train_s) := fitted in
  X_test_s <- lift (transform scaler X_test);;
  clf <- lift (clf_fit 100 42 X_train_s y_train);;
  acc <- lift (score clf X_test_s y_test);;
  print ("Engagement model accuracy: " +:+ format_3f acc);;
  save_model
    (<["model" := VClf clf]>
       (<["scaler" := VScaler scaler]> {["features" := VList features]}))
    (os_path.join MODEL_DIR "engagement.joblib").

Definition train_recommender (df : DataFrame) : Py unit :=
  let cat_cols := filter (λ c, String.prefix "cat_" c) (columns df) in
  let items := groupby_item_id_agg df cat_cols in
  if (length items <? 2)%nat then
    print "Not enough items to train recommender; skipping.";;
    ret tt
  else
    let X := fillna 0 (ir_cats <$> items) in
    nn <- lift (nn_fit (Z.min 10 (Z.of_nat (length items) - 1)) "cosine" X);;
    save_model
      (<["nn" := VNN nn]>
         (<["items_index" := VList (ir_item_id <$> items)]>
            {["cat_cols" := VList cat_cols]}))
      (os_path.join MODEL_DIR "recommender.joblib");;
    print ("Recommender trained on " +:+ pretty (length items) +:+ " items").

Definition train_all (input_path : option string) : Py unit :=
  print "Starting training run...";;
  df <- get_processed input_path;;
  os_makedirs MODEL_DIR;;
  try_except
    (train_engagement df;;
     train_recommender df;;
     print "Training complete.")
    (λ e, print ("Training failed: " +:+ str_exn e)).

(* ------------------------------------------------------------------- *)
(** *** deploy_api.py *)

Record EngagementResponse := { engagement_probability : float }.
Record RecommendResponse := { recommendations : list string }.

(** [payload.__dict__] *)
Definition payload_dict (payload : SessionPayload) : gmap string cell :=
  <["session_duration" := CFloat (session_duration payload)]>
    (<["pages_viewed" := CInt (pages_viewed payload)]>
       (<["actions" := CInt (actions payload)]>
          {["hour" := CInt (hour payload)]})).

(** Truth value of what [load_model] returns: [None] and the empty
    dictionary are false. *)
Definition truthy (m : option (gmap string pyval)) : bool :=
  match m with
  | None => false
  | Some d => negb (bool_decide (d = ∅))
  end.

(** [m[key]] *)
Definition getitem (m : option (gmap string pyval)) (key : string)
    : result pyval :=
  match m with
  | None => Raise (PyError "TypeError" "'NoneType' object is not subscriptable")
  | Some d =>
      match d !! key with
      | Some v => Ok v
      | None => Raise (PyError "KeyError" key)
      end
  end.

(** Using a stored value as a list ([for f in v], [x in v], [v[:k]],
    [v[i]], [v.index(x)]). *)
Definition as_list (v : pyval) : result (list string) :=
  match v with
  | VList l => Ok l
  | _ => Raise (PyError "TypeError" "object is not a list")
  end.

(** [v.transform(X)] *)
Definition call_transform (v : pyval) (X : Matrix) : result Matrix :=
  match v with
  | VScaler s => transform s X
  | _ => Raise (PyError "AttributeError" "transform")
  end.

(** [v.predict_proba(X)] *)
Definition call_predict_proba (v : pyval) (X : Matrix)
    : result (list (list float)) :=
  match v with
  | VClf c => predict_proba c X
  | _ => Raise (PyError "AttributeError" "predict_proba")
  end.

(** [v.kneighbors(v._fit_X[idx:idx+1])] *)
Definition call_kneighbors_of (v : pyval) (idx : nat)
    : result (list (list float) * list (list nat)) :=
  match v with
  | VNN nn => kneighbors nn (take 1 (drop idx (_fit_X nn)))
  | _ => Raise (PyError "AttributeError" "_fit_X")
  end.

(** [l[i]] *)
Definition list_getitem {A} (l : list A) (i : nat) : result A :=
  match l !! i with
  | Some x => Ok x
  | None => Raise (PyError "IndexError" "index out of range")
  end.

(** [[f(i) for i in l]] where [f] may raise. *)
Fixpoint list_comp {A B} (f : A → result B) (l : list A) : result (list B) :=
  match l with
  | [] => Ok []
  | x :: l' => rbind (f x) (λ y, rbind (list_comp f l') (λ ys, Ok (y :: ys)))
  end.

Definition load_engagement : Py (option (gmap string pyval)) :=
  obj <- load_model (os_path.join MODEL_DIR "engagement.joblib");;
  ret obj.

Definition load_recommender : Py (option (gmap string pyval)) :=
  load_model (os_path.join MODEL_DIR "recommender.joblib").

Definition predict (payload : SessionPayload) : Py EngagementResponse :=
  m <- load_engagement;;
  if negb (truthy m) then
    raise (HTTPException 503 "Engagement model not available")
  else
    features <- lift (rbind (getitem m "features") as_list);;
    let row := (λ f, default (CInt 0) (payload_dict payload !! f)) <$> features in
    Xs <- lift (rbind (getitem m "scaler") (λ s, call_transform s [row]));;
    P <- lift (rbind (getitem m "model") (λ c, call_predict_proba c Xs));;
    prob <- lift (rbind (list_getitem P 0) (λ P0, list_getitem P0 1));;
    ret {| engagement_probability := prob |}.

Definition recommend (req : RecommendRequest) : Py RecommendResponse :=
  rec <- load_recommender;;
  if negb (truthy rec) then
    raise (HTTPException 503 "Recommender not available")
  else
    nn <- lift (getitem rec "nn");;
    items <- lift (getitem rec "items_index");;
    (* req.item_id and req.item_id in items *)
    cond <- lift (match item_id req with
                  | None => Ok None
                  | Some i =>
                      if bool_decide (i = "") then Ok None
                      else rbind (as_list items)
                             (λ l, Ok (if bool_decide (i ∈ l) then Some i else None))
                  end);;
    picks <- lift (match cond with
                   | Some i =>
                       rbind (as_list items) (λ l,
                       let idx := default 0%nat (index_of i l) in
                       rbind (call_kneighbors_of nn idx) (λ r,
                       let '(dists, nbrs) := r in
                       rbind (list_getitem nbrs 0) (λ nbrs0,
                       list_comp (list_getitem l) nbrs0)))
                   | None =>
                       (* fallback: return top-K by index *)
                       rbind (as_list items) (λ l, Ok (take 5 l))
                   end);;
    ret {| recommendations := picks |}.

(* ------------------------------------------------------------------- *)
(** *** scheduler.py *)

(** A job of the scheduler: the callable and its interval trigger. *)
Record Job := {
  job_func : Py unit;
  job_trigger : string;
  job_hours : Z;
}.

Record BackgroundScheduler := {
  jobs : gmap string Job;
  running : bool;
}.

(** [BackgroundScheduler()] *)
Definition new_scheduler : BackgroundScheduler :=
  {| jobs := ∅; running := false |}.

(** [scheduler.add_job(func, trigger, hours=.., id=.., replace_existing=..)] *)
Definition add_job (s : BackgroundScheduler) (func : Py unit)
    (trigger : string) (hours : Z) (id : string) (replace_existing : bool)
    : result BackgroundScheduler :=
  if bool_decide (is_Some (jobs s !! id)) && negb replace_existing then
    Raise (PyError "ConflictingIdError" id)
  else
    Ok {| jobs := <[id := {| job_func := func; job_trigger := trigger;
                             job_hours := hours |}]> (jobs s);
          running := running s |}.

(** [scheduler.start()] *)
Definition start (s : BackgroundScheduler) : result BackgroundScheduler :=
  if running s then Raise (PyError "SchedulerAlreadyRunningError" "")
  else Ok {| jobs := jobs s; running := true |}.

(** [scheduler.shutdown(wait=..)], what the [atexit] hook calls. *)
Definition shutdown (s : BackgroundScheduler) (wait : bool)
    : result BackgroundScheduler :=
  if running s then Ok {| jobs := jobs s; running := false |}
  else Raise (PyError "SchedulerNotRunningError" "").

Definition start_scheduler (func : Py unit) (hours : Z)
    : Py BackgroundScheduler :=
  let scheduler := new_scheduler in
  (* run immediately once, then schedule *)
  try_except func
    (λ e, print ("Initial scheduled run failed: " +:+ str_exn e));;
  scheduler <- lift (add_job scheduler func "interval" hours "retrain_job" true);;
  scheduler <- lift (start scheduler);;
  atexit_register (SchedulerShutdown false);;
  print ("Scheduler started: retrain every " +:+ pretty hours +:+ " hours");;
  ret scheduler.

End Pipeline.

(* ===================================================================== *)
(** ** Model kinds and what serving sees *)
(* ===================================================================== *)

Inductive ModelKind := Engagement | Recommender.

Section Kinds.

Context {PF : PyFloat} {SK : Sklearn} {RNG : NumpyRng}.
Variable here : string.

(** The file a kind's artifact is published to. *)
Definition artifact_path (k : ModelKind) : string :=
  match k with
  | Engagement => os_path.join (MODEL_DIR here) "engagement.joblib"
  | Recommender => os_path.join (MODEL_DIR here) "recommender.joblib"
  end.

(** What the serving layer reads for a kind. *)
Definition serving_load (k : ModelKind) : St World (option (gmap string pyval)) :=
  match k with
  | Engagement => load_engagement here
  | Recommender => load_recommender here
  end.

(** The training function of a kind. *)
Definition trainer (k : ModelKind) : DataFrame → St World unit :=
  match k with
  | Engagement => train_engagement here
  | Recommender => train_recommender here
  end.

(** [features] of [train_engagement], the schema stored with the model. *)
Definition features_of (df : DataFrame) : list string :=
  filter (λ c, c ∉ ["user_id"; "item_id"; "timestamp"; "engaged"])
         (columns df).

(** [cat_cols] of [train_recommender]. *)
Definition cat_cols_of (df : DataFrame) : list string :=
  filter (λ c, String.prefix "cat_" c) (columns df).

(** The dictionary [train_engagement] saves. *)
Definition engagement_artifact (clf : RandomForestClassifier)
    (scaler : StandardScaler) (features : list string) : gmap string pyval :=
  <["model" := VClf clf]>
    (<["scaler" := VScaler scaler]> {["features" := VList features]}).

(** The dictionary [train_recommender] saves. *)
Definition recommender_artifact (nn : NearestNeighbors)
    (items_index cat_cols : list string) : gmap string pyval :=
  <["nn" := VNN nn]>
    (<["items_index" := VList items_index]> {["cat_cols" := VList cat_cols]}).

(** [w] with one more line on standard output. *)
Definition with_line (w : World) (s : string) : World :=
  mkWorld (fs w) (stdout w ++ [s]) (utcnow w) (atexit w).

(** [w] with the file at [path] replaced. *)
Definition with_file (w : World) (path : string) (f : file) : World :=
  mkWorld (<[path := f]> (fs w)) (stdout w) (utcnow w) (atexit w).

(** The world in which [train_all] calls [get_processed]. *)
Definition after_banner (w : World) : World :=
  (print "Starting training run..." w).2.

(** A run of [train_all] fails for kind [k]: loading the data raises, or
    the kind's training function raises on the processed frame. *)
Definition attempt_fails (k : ModelKind) (input_path : option string)
    (w : World) : Prop :=
  match get_processed here input_path (after_banner w) with
  | (Raise _, _) => True
  | (Ok df, _) => ∀ w', is_ok (trainer k df w').1 = false
  end.

(** The paths [train_all] writes besides the artifacts. *)
Definition data_path (input_path : option string) : string :=
  match input_path with
  | None => os_path.join (os_path.join here "data") "user_behavior.csv"
  | Some p => p
  end.

Definition processed_path : string :=
  os_path.join (os_path.join here "data") "processed.parquet".


(** [m] leaves the file at [p] as it found it, however it ends. *)
Definition keeps (p : string) {A} (m : St World A) : Prop :=
  ∀ w, fs (m w).2 !! p = fs w !! p.

End Kinds.

(* ===================================================================== *)
(** ** A small instance of the interfaces, and sample worlds *)
(* ===================================================================== *)

(** Used to run the pipeline on concrete inputs.  Floats are rationals; the
    estimators remember nothing but the matrix they were fitted on; two
    switches make [fit] of the classifier, or of the neighbours index,
    raise. *)
Module Toy.

#[export] Instance toy_float : PyFloat :=
  {| float := Q;
     format_3f := λ _, "1.000";
     int_of_float := λ q, Qnum q `quot` Zpos (Qden q) |}.

Definition toy_sklearn (clf_ok nn_ok : bool) : Sklearn :=
  {| RandomForestClassifier := unit;
     StandardScaler := unit;
     NearestNeighbors := list (list cell);
     train_test_split X y _ _ :=
       match X with
       | [] => Raise (PyError "ValueError" "n_samples=0")
       | _ => Ok (X, X, y, y)
       end;
     fit_transform X := Ok (tt, X);
     transform _ X := Ok X;
     clf_fit _ _ _ _ :=
       if clf_ok then Ok tt else Raise (PyError "ValueError" "fit failed");
     score _ _ _ := Ok 1%Q;
     predict_proba _ X := Ok ((λ _, [(1 # 2)%Q; (1 # 2)%Q]) <$> X);
     nn_fit _ _ X :=
       if nn_ok then Ok X else Raise (PyError "ValueError" "fit failed");
     _fit_X nn := nn;
     kneighbors nn X := Ok ([], (λ _, [0%nat]) <$> X) |}.

#[export] Instance toy_rng : NumpyRng :=
  {| Generator := Z;
     default_rng seed := seed;
     integers lo hi g := (lo + g `mod` (hi - lo), g + 1);
     normal mu sigma g := (inject_Z mu, g + 1);
     poisson lam g := (lam, g + 1);
     choice l g :=
       (default "" (l !! Z.to_nat (g `mod` Z.of_nat (length l))), g + 1) |}.

Definition event (u : string) (d : Z) (it cat : string) : RawRow :=
  {| raw_user_id := u; raw_session_duration := d; raw_pages_viewed := 3;
     raw_actions := 1; raw_item_id := it; raw_item_category := cat;
     raw_timestamp := 7200000000 |}.

(** Three events on two items. *)
Definition two_items : list RawRow :=
  [event "user_1" 100 "item_1" "ml";
   event "user_2" 400 "item_2" "web3";
   event "user_1" 500 "item_1" "ml"].

(** Two events on one item. *)
Definition one_item : list RawRow :=
  [event "user_1" 100 "item_7" "ml"; event "user_2" 400 "item_7" "ml"].

Section Worlds.

Context {SK : Sklearn}.

Definition empty_world : World := mkWorld ∅ [] 0 [].

(** The default input file holds [two_items]; nothing is published. *)
Definition fresh_world : World :=
  mkWorld {["/app/data/user_behavior.csv" := CsvFile two_items]} [] 0 [].

(** The default input file exists and is empty. *)
Definition blank_input_world : World :=
  mkWorld {["/app/data/user_behavior.csv" := EmptyFile]} [] 0 [].

(** As [fresh_world], with the artifact [obj] published for [k]. *)
Definition serving_world (k : ModelKind) (obj : gmap string pyval) : World :=
  mkWorld (<[artifact_path "/app" k := JoblibFile obj]>
             {["/app/data/user_behavior.csv" := CsvFile two_items]})
          [] 0 [].

End Worlds.

(** scikit-learn where everything fits, and where the neighbours index
    does not. *)
Definition working : Sklearn := toy_sklearn true true.
Definition failing_nn : Sklearn := toy_sklearn true false.

(** A recommender published by an earlier run. *)
Definition stale_recommender : gmap string (pyval (SK := failing_nn)) :=
  recommender_artifact (SK := failing_nn) [] ["item_0"; "item_9"] [].

(** A recommender over seven items, and one over three. *)
Definition seven_items : list string :=
  ["item_1"; "item_2"; "item_3"; "item_4"; "item_5"; "item_6"; "item_7"].

Definition recommender_of (items : list string)
    : gmap string (pyval (SK := working)) :=
  recommender_artifact (SK := working) [] items ["cat_ml"; "cat_web3"].

(** An engagement artifact with two one-hot columns in its schema. *)
Definition sample_features : list string :=
  ["session_duration"; "pages_viewed"; "actions"; "hour"; "cat_ml"; "cat_web3"].

Definition sample_engagement : gmap string (pyval (SK := working)) :=
  engagement_artifact (SK := working) tt tt sample_features.

Definition sample_payload : SessionPayload :=
  {| session_duration := (25 # 2)%Q; pages_viewed := 3; actions := 1;
     hour := 14 |}.

Definition unknown_item : RecommendRequest :=
  {| user_id := Some "user_1"; item_id := Some "item_404" |}.

Definition no_item : RecommendRequest :=
  {| user_id := None; item_id := None |}.

End Toy.

(* ===================================================================== *)
(** ** Further vocabulary *)
(* ===================================================================== *)


Section Vocabulary.

Context {PF : PyFloat} {SK : Sklearn} {RNG : NumpyRng}.
Variable here : string.

(** [m] may read the world but hands it back as it found it. *)
Definition read_only {A} (m : St World A) : Prop := ∀ w, (m w).2 = w.

(** The files a run of [train_all] may write. *)
Definition pipeline_paths (input_path : option string) : list string :=
  [data_path here input_path; processed_path here;
   artifact_path here Engagement; artifact_path here Recommender].

(** The row [predict] builds for a stored schema. *)
Definition feature_row (payload : SessionPayload) (features : list string)
    : list cell :=
  (λ f, default (CInt 0) (payload_dict payload !! f)) <$> features.

(** What [predict] answers once it has the model, the scaler and the row. *)
Definition score_row (clf : RandomForestClassifier) (scaler : StandardScaler)
    (row : list cell) : result EngagementResponse :=
  rbind (transform scaler [row]) (λ Xs,
  rbind (predict_proba clf Xs) (λ P,
  rbind (rbind (list_getitem P 0) (λ P0, list_getitem P0 1)) (λ prob,
  Ok {| engagement_probability := prob |}))).

(** The last line [train_all] prints once the data is loaded. *)
Definition verdict (df : DataFrame) (w : World) : string :=
  match (train_engagement here df w).1 with
  | Raise e => "Training failed: " +:+ str_exn e
  | Ok _ =>
      match (train_recommender here df w).1 with
      | Raise e => "Training failed: " +:+ str_exn e
      | Ok _ => "Training complete."
      end
  end.

End Vocabulary.

(** More sample data for concrete runs. *)
Module Cases.

Import Toy.

(** scikit-learn whose classifier has seen one class only: [predict_proba]
    has a single column. *)
Definition one_class : Sklearn :=
  {| RandomForestClassifier := unit;
     StandardScaler := unit;
     NearestNeighbors := list (list cell);
     train_test_split X y _ _ := Ok (X, X, y, y);
     fit_transform X := Ok (tt, X);
     transform _ X := Ok X;
     clf_fit _ _ _ _ := Ok tt;
     score _ _ _ := Ok 1%Q;
     predict_proba _ X := Ok ((λ _, [1%Q]) <$> X);
     nn_fit _ _ X := Ok X;
     _fit_X nn := nn;
     kneighbors nn X := Ok ([], (λ _, [0%nat]) <$> X) |}.

Definition one_class_engagement : gmap string (pyval (SK := one_class)) :=
  engagement_artifact (SK := one_class) tt tt sample_features.

(** A recommender fitted on three items. *)
Definition three_items : list string := ["item_1"; "item_2"; "item_3"].

Definition fitted_recommender : gmap string (pyval (SK := working)) :=
  recommender_artifact (SK := working)
    [[CBool true]; [CBool false]; [CBool true]] three_items ["cat_ml"].

Definition known_item : RecommendRequest :=
  {| user_id := None; item_id := Some "item_2" |}.

Definition empty_item : RecommendRequest :=
  {| user_id := None; item_id := Some "" |}.

(** [fresh_world] once [train_all] has printed its banner and
    [get_processed] has written the processed frame. *)
Definition processed_world {SK : Sklearn} : World :=
  with_file (after_banner fresh_world) (processed_path "/app")
    (ParquetFile (process two_items)).

End Cases.

(** Closes [l = r] on closed terms by evaluating both sides. *)
Ltac by_vm :=
  lazymatch goal with
  | |- @eq ?T _ ?r => vm_cast_no_check (@eq_refl T r)
  end.

(* ===================================================================== *)
(** ** Sanity checks of the embedding *)
(* ===================================================================== *)

Section Checks.

Import Toy.

Example dirname_nested : os_path.dirname "/app/ml/train.py" = "/app/ml".
Proof. reflexivity. Qed.

Example dirname_bare : os_path.dirname "train.py" = "".
Proof. reflexivity. Qed.

Example dirname_root : os_path.dirname "/train.py" = "/".
Proof. reflexivity. Qed.

Example join_dir : os_path.join "/app" "models" = "/app/models".
Proof. reflexivity. Qed.

Example join_empty : os_path.join "" "models" = "models".
Proof. reflexivity. Qed.

Example hour_of_two : hour_of 7200000000 = 2.
Proof. reflexivity. Qed.

Example columns_two_items :
  columns (process two_items)
  = ["user_id"; "session_duration"; "pages_viewed"; "actions"; "item_id";
     "timestamp"; "engaged"; "hour"; "cat_ml"; "cat_web3"].
Proof. by_vm. Qed.

Example features_two_items :
  features_of (process two_items)
  = ["session_duration"; "pages_viewed"; "actions"; "hour"; "cat_ml"; "cat_web3"].
Proof. by_vm. Qed.

Example engaged_two_items : r_engaged <$> rows (process two_items) = [0; 1; 1].
Proof. by_vm. Qed.

Example dummies_two_items :
  r_dummies <$> rows (process two_items)
  = [[true; false]; [false; true]; [true; false]].
Proof. by_vm. Qed.

Example groups_two_items :
  ir_item_id <$>
    groupby_item_id_agg (process two_items)
      (cat_cols_of (process two_items))
  = ["item_1"; "item_2"].
Proof. by_vm. Qed.

Example run_two_items :
  stdout (train_all (SK := working) "/app" None fresh_world).2
  = ["Starting training run..."; "Engagement model accuracy: 1.000";
     "Recommender trained on 2 items"; "Training complete."].
Proof. by_vm. Qed.

Example run_nn_failure :
  stdout (train_all (SK := failing_nn) "/app" None fresh_world).2
  = ["Starting training run..."; "Engagement model accuracy: 1.000";
     "Training failed: fit failed"].
Proof. by_vm. Qed.

End Checks.

(* ===================================================================== *)
(** ** Paths *)
(* ===================================================================== *)

Section PathFacts.

Import os_path.

Lemma append_cons c a b : String c a +:+ b = String c (a +:+ b).
Proof. reflexivity. Qed.

Lemma append_nil_l b : "" +:+ b = b.
Proof. reflexivity. Qed.

Lemma append_assoc a b c : (a +:+ b) +:+ c = a +:+ (b +:+ c).
Proof.
  induction a as [|x a IH]; [done|]. by rewrite !append_cons, IH.
Qed.

Lemma endswith_sep_app a c b :
  endswith_sep (a +:+ String c b) = endswith_sep (String c b).
Proof.
  induction a as [|x a IH]; [done|].
  rewrite append_cons. simpl endswith_sep at 1.
  destruct (a +:+ String c b) eqn:E; [by destruct a|].
  by rewrite <-IH.
Qed.

Lemma append_eq_nil a b : a +:+ b = "" → a = "" ∧ b = "".
Proof. destruct a; [done|]. by rewrite append_cons. Qed.

Lemma join_relative a b :
  startswith_sep b = false → join a b = prefix_of a +:+ b.
Proof.
  intros Hb. unfold join, prefix_of. rewrite Hb.
  destruct (bool_decide (a = "") || endswith_sep a); [done|].
  by rewrite append_assoc.
Qed.

Variable here : string.

Lemma MODEL_DIR_eq : MODEL_DIR here = prefix_of here +:+ "models".
Proof. unfold MODEL_DIR. by rewrite join_relative. Qed.

Lemma prefix_of_dir d c s :
  endswith_sep (String c s) = false →
  prefix_of (d +:+ String c s) = d +:+ String c s +:+ "/".
Proof.
  intros Hs. unfold prefix_of. rewrite endswith_sep_app, Hs.
  rewrite bool_decide_eq_false_2; [by rewrite append_assoc|].
  by intros [_ ?]%append_eq_nil.
Qed.

Lemma artifact_path_eq k :
  artifact_path here k =
  prefix_of here +:+
    match k with
    | Engagement => "models/engagement.joblib"
    | Recommender => "models/recommender.joblib"
    end.
Proof.
  destruct k; unfold artifact_path; rewrite MODEL_DIR_eq;
    (rewrite join_relative by done); (rewrite prefix_of_dir by done);
    by rewrite !append_assoc.
Qed.

Lemma processed_path_eq :
  processed_path here = prefix_of here +:+ "data/processed.parquet".
Proof.
  unfold processed_path. rewrite (join_relative here) by done.
  rewrite join_relative by done. rewrite prefix_of_dir by done.
  by rewrite !append_assoc.
Qed.

Lemma default_data_path_eq :
  data_path here None = prefix_of here +:+ "data/user_behavior.csv".
Proof.
  unfold data_path. rewrite (join_relative here) by done.
  rewrite join_relative by done. rewrite prefix_of_dir by done.
  by rewrite !append_assoc.
Qed.

Lemma processed_path_not_artifact k : processed_path here ≠ artifact_path here k.
Proof.
  rewrite processed_path_eq, artifact_path_eq.
  intros E%(inj (String.append _)). by destruct k.
Qed.

Lemma default_data_path_not_artifact k :
  data_path here None ≠ artifact_path here k.
Proof.
  rewrite default_data_path_eq, artifact_path_eq.
  intros E%(inj (String.append _)). by destruct k.
Qed.

Lemma artifact_path_inj k1 k2 :
  artifact_path here k1 = artifact_path here k2 → k1 = k2.
Proof.
  rewrite !artifact_path_eq.
  intros E%(inj (String.append _)). by destruct k1, k2.
Qed.

End PathFacts.

(* ===================================================================== *)
(** ** Effects on the file map *)
(* ===================================================================== *)

Section Properties.

Context {PF : PyFloat} {SK : Sklearn} {RNG : NumpyRng}.
Variable here : string.

Lemma keeps_ret p {A} (a : A) : keeps p (ret a).
Proof. done. Qed.

Lemma keeps_raise p {A} e : keeps p (raise (A:=A) e).
Proof. done. Qed.

Lemma keeps_lift p {A} (r : result A) : keeps p (lift r).
Proof. done. Qed.

Lemma keeps_print p s : keeps p (print s).
Proof. done. Qed.

Lemma keeps_bind p {A B} (m : St World A) (k : A → St World B) :
  keeps p m → (∀ a, keeps p (k a)) → keeps p (bind m k).
Proof.
  intros Hm Hk w. unfold bind. specialize (Hm w).
  destruct (m w) as [[a|e] w1]; simpl in *; [|done].
  by rewrite Hk.
Qed.

Lemma keeps_try_except p {A} (m : St World A) h :
  keeps p m → (∀ e, keeps p (h e)) → keeps p (try_except m h).
Proof.
  intros Hm Hh w. unfold try_except. specialize (Hm w).
  destruct (m w) as [[a|e] w1]; simpl in *; [done|].
  by rewrite Hh.
Qed.

Lemma keeps_write_file p q f : p ≠ q → keeps p (write_file q f).
Proof. intros Hne w. simpl. by rewrite lookup_insert_ne. Qed.

Lemma keeps_os_path_exists p q : keeps p (os_path_exists q).
Proof. done. Qed.

Lemma keeps_read_csv p q : keeps p (read_csv q).
Proof. intros w. unfold read_csv. by destruct (fs w !! q) as [[]|]. Qed.

Lemma keeps_joblib_load p q : keeps p (joblib_load q).
Proof. intros w. unfold joblib_load. by destruct (fs w !! q) as [[]|]. Qed.

Lemma keeps_load_model p q : keeps p (load_model q).
Proof.
  apply keeps_bind; [apply keeps_os_path_exists|]. intros [|]; simpl.
  - apply keeps_bind; [apply keeps_joblib_load|]. intros; apply keeps_ret.
  - apply keeps_ret.
Qed.

Lemma keeps_save_model p q obj : p ≠ q → keeps p (save_model obj q).
Proof.
  intros. apply keeps_bind; [apply keeps_ret|]. intros _.
  by apply keeps_write_file.
Qed.

Lemma keeps_generate_synthetic p q n : p ≠ q → keeps p (generate_synthetic q n).
Proof.
  intros. apply keeps_bind; [apply keeps_ret|]. intros _.
  apply keeps_bind; [done|]. intros now.
  apply keeps_bind; [by apply keeps_write_file|]. intros; apply keeps_ret.
Qed.

Lemma keeps_load_raw p ip : p ≠ data_path here ip → keeps p (load_raw here ip).
Proof.
  intros Hne. unfold load_raw. fold (data_path here ip).
  apply keeps_bind; [apply keeps_os_path_exists|]. intros [|]; simpl.
  - apply keeps_read_csv.
  - apply keeps_bind; [apply keeps_print|]. intros _.
    by apply keeps_generate_synthetic.
Qed.

Lemma keeps_get_processed p ip :
  p ≠ data_path here ip → p ≠ processed_path here →
  keeps p (get_processed here ip).
Proof.
  intros Hd Hp. apply keeps_bind; [by apply keeps_load_raw|]. intros df.
  apply keeps_bind; [apply keeps_ret|]. intros _.
  apply keeps_bind; [by apply keeps_write_file|]. intros; apply keeps_ret.
Qed.

(* ------------------------------------------------------------------- *)
(** *** What one training function does *)

(** [train_engagement] either raises in a scikit-learn call, before any
    effect, or publishes one dictionary and prints the accuracy. *)
Lemma train_engagement_cases df w :
  match train_engagement here df w with
  | (Raise e, w') => w' = w
  | (Ok _, w') =>
      ∃ clf scaler acc,
        w' = with_file
               (with_line w ("Engagement model accuracy: " +:+ format_3f acc))
               (artifact_path here Engagement)
               (JoblibFile (engagement_artifact clf scaler (features_of df)))
  end.
Proof.
  unfold train_engagement, bind, lift.
  destruct (train_test_split _ _ _ _) as [[[[X_train X_test] y_train] y_test]|e];
    [|done].
  destruct (fit_transform _) as [[scaler X_train_s]|e]; [|done].
  destruct (transform _ _) as [X_test_s|e]; [|done].
  destruct (clf_fit _ _ _ _) as [clf|e]; [|done].
  destruct (score _ _ _) as [acc|e]; [|done].
  simpl. by exists clf, scaler, acc.
Qed.

(** Whether it raises does not depend on the world. *)
Lemma train_engagement_result df w w' :
  (train_engagement here df w).1 = (train_engagement here df w').1.
Proof.
  unfold train_engagement, bind, lift.
  destruct (train_test_split _ _ _ _) as [[[[X_train X_test] y_train] y_test]|e];
    [|done].
  destruct (fit_transform _) as [[scaler X_train_s]|e]; [|done].
  destruct (transform _ _) as [X_test_s|e]; [|done].
  destruct (clf_fit _ _ _ _) as [clf|e]; [|done].
  by destruct (score _ _ _) as [acc|e].
Qed.

(** [train_recommender] skips, raises in [fit] before any effect, or
    publishes one dictionary. *)
Lemma train_recommender_cases df w :
  let items := groupby_item_id_agg df (cat_cols_of df) in
  match train_recommender here df w with
  | (Raise e, w') => w' = w ∧ (2 ≤ length items)%nat
  | (Ok _, w') =>
      ((length items < 2)%nat ∧
       w' = with_line w "Not enough items to train recommender; skipping.")
      ∨ ((2 ≤ length items)%nat ∧ ∃ nn,
         w' = with_line
                (with_file w (artifact_path here Recommender)
                   (JoblibFile (recommender_artifact nn (ir_item_id <$> items)
                                  (cat_cols_of df))))
                ("Recommender trained on " +:+ pretty (length items)
                 +:+ " items"))
  end.
Proof.
  intros items. unfold train_recommender. fold (cat_cols_of df). fold items.
  destruct (length items <? 2)%nat eqn:Hlen.
  - apply Nat.ltb_lt in Hlen. left. by split.
  - apply Nat.ltb_ge in Hlen. unfold bind, lift.
    destruct (nn_fit _ _ _) as [nn|e]; [|done].
    right. split; [done|]. by exists nn.
Qed.

Lemma train_recommender_result df w w' :
  (train_recommender here df w).1 = (train_recommender here df w').1.
Proof.
  unfold train_recommender.
  destruct (length _ <? 2)%nat; [done|]. unfold bind, lift.
  by destruct (nn_fit _ _ _).
Qed.

Lemma trainer_result k df w w' : (trainer here k df w).1 = (trainer here k df w').1.
Proof.
  destruct k; [apply train_engagement_result|apply train_recommender_result].
Qed.

(** A training function that raises leaves the whole world as it was. *)
Lemma trainer_raise_world k df w e w' :
  trainer here k df w = (Raise e, w') → w' = w.
Proof.
  destruct k; simpl; intros E.
  - pose proof (train_engagement_cases df w) as H. by rewrite E in H.
  - pose proof (train_recommender_cases df w) as H. rewrite E in H. by destruct H.
Qed.

(** A training function only ever touches its own artifact. *)
Lemma keeps_trainer p k df : p ≠ artifact_path here k → keeps p (trainer here k df).
Proof.
  intros Hne w. destruct k; simpl.
  - pose proof (train_engagement_cases df w) as H.
    destruct (train_engagement here df w) as [[[]|e] w1]; simpl.
    + destruct H as (clf & scaler & acc & ->). simpl. by rewrite lookup_insert_ne.
    + by subst.
  - pose proof (train_recommender_cases df w) as H.
    destruct (train_recommender here df w) as [[[]|e] w1]; simpl in *.
    + destruct H as [[_ ->]|[_ [nn ->]]]; simpl; [done|].
      by rewrite lookup_insert_ne.
    + by destruct H as [-> _].
Qed.

(* ------------------------------------------------------------------- *)
(** *** Loading what was saved *)

Lemma load_model_Some p (w : World) obj :
  fs w !! p = Some (JoblibFile obj) → load_model p w = (Ok (Some obj), w).
Proof.
  intros H. unfold load_model, bind, os_path_exists, joblib_load.
  rewrite H. simpl. by rewrite H.
Qed.

Lemma load_model_None p (w : World) :
  fs w !! p = None → load_model p w = (Ok None, w).
Proof.
  intros H. unfold load_model, bind, os_path_exists. by rewrite H.
Qed.


(** What [load_model] returns depends on the file at its path only. *)
Lemma load_model_result p (w w' : World) :
  fs w !! p = fs w' !! p → (load_model p w).1 = (load_model p w').1.
Proof.
  intros E. unfold load_model, bind, os_path_exists, joblib_load, ret.
  rewrite <-E. destruct (fs w !! p) as [[]|] eqn:F; simpl; try done.
  all: by rewrite <-E, ?F.
Qed.

Lemma serving_load_result k (w w' : World) :
  fs w !! artifact_path here k = fs w' !! artifact_path here k →
  (serving_load here k w).1 = (serving_load here k w').1.
Proof.
  intros E. destruct k; simpl.
  - unfold load_engagement, bind.
    pose proof (load_model_result _ _ _ E) as H. simpl in H.
    destruct (load_model _ w) as [[o|e] w1], (load_model _ w') as [[o'|e'] w1'];
      simpl in *; congruence.
  - by apply load_model_result.
Qed.

Lemma truthy_Some d k (v : pyval) : d !! k = Some v → truthy (Some d) = true.
Proof.
  intros H. unfold truthy. rewrite bool_decide_eq_false_2; [done|].
  intros ->. by rewrite lookup_empty in H.
Qed.

Lemma engagement_artifact_lookup clf scaler features :
  engagement_artifact clf scaler features !! "features" = Some (VList features)
  ∧ engagement_artifact clf scaler features !! "scaler" = Some (VScaler scaler)
  ∧ engagement_artifact clf scaler features !! "model" = Some (VClf clf).
Proof. by unfold engagement_artifact; simplify_map_eq. Qed.



(* ------------------------------------------------------------------- *)
(** *** One run of [train_all] *)

Lemma data_path_not_artifact k ip :
  ip ≠ Some (artifact_path here k) → artifact_path here k ≠ data_path here ip.
Proof.
  destruct ip as [p|]; simpl.
  - intros H E. apply H. by rewrite E.
  - intros _ E. by apply (default_data_path_not_artifact here k).
Qed.

Lemma train_all_unfold ip (w : World) :
  train_all here ip w =
  match get_processed here ip (after_banner w) with
  | (Ok df, w1) =>
      try_except
        (train_engagement here df;; train_recommender here df;;
         print "Training complete.")
        (λ e, print ("Training failed: " +:+ str_exn e)) w1
  | (Raise e, w1) => (Raise e, w1)
  end.
Proof.
  unfold train_all, bind at 1 2. simpl. unfold after_banner. simpl.
  by destruct (get_processed _ _ _) as [[df|e] w1].
Qed.

Lemma try_except_print_ok (m : St World unit) (f : exn → string) (w : World) :
  (try_except m (λ e, print (f e)) w).1 = Ok tt.
Proof. unfold try_except. by destruct (m w) as [[[]|e] w1]. Qed.

(** [train_all] raises exactly when [get_processed] does. *)
Lemma train_all_result ip (w : World) :
  (train_all here ip w).1 =
    match (get_processed here ip (after_banner w)).1 with
    | Ok _ => Ok tt
    | Raise e => Raise e
    end.
Proof.
  rewrite train_all_unfold.
  destruct (get_processed _ _ _) as [[df|e] w1]; simpl; [|done].
  apply try_except_print_ok.
Qed.

(** A run that fails for a kind leaves that kind's file alone. *)
Lemma train_all_keeps_failed_kind k ip (w : World) :
  ip ≠ Some (artifact_path here k) →
  attempt_fails here k ip w →
  fs (train_all here ip w).2 !! artifact_path here k
  = fs w !! artifact_path here k.
Proof.
  intros Hip Hfail.
  rewrite train_all_unfold. unfold attempt_fails in Hfail.
  pose proof (keeps_get_processed (artifact_path here k) ip
    (data_path_not_artifact _ _ Hip)
    (λ E, processed_path_not_artifact here k (eq_sym E)) (after_banner w)) as Hgp.
  destruct (get_processed here ip (after_banner w)) as [[df|e] w1]; simpl in *;
    [|done].
  rewrite <-Hgp. clear Hgp.
  unfold try_except, bind at 1.
  destruct k; simpl in Hfail.
  - specialize (Hfail w1).
    destruct (train_engagement here df w1) as [[[]|e] w2] eqn:E; [done|].
    by apply (trainer_raise_world Engagement) in E as ->.
  - pose proof (keeps_trainer (artifact_path here Recommender) Engagement df) as Hk.
    specialize (Hk ltac:(by intros ?%artifact_path_inj) w1).
    simpl in Hk.
    destruct (train_engagement here df w1) as [[[]|e] w2] eqn:E; simpl in *;
      [|done].
    unfold bind. specialize (Hfail w2).
    destruct (train_recommender here df w2) as [[[]|e] w3] eqn:E2; [done|].
    by apply (trainer_raise_world Recommender) in E2 as ->.
Qed.

Lemma predict_raises_503 payload (w : World) :
  fs w !! artifact_path here Engagement = None →
  predict here payload w =
    (Raise (HTTPException 503 "Engagement model not available"), w).
Proof.
  intros H. unfold predict, load_engagement, bind at 1 2.
  unfold artifact_path in H. by rewrite (load_model_None _ _ H).
Qed.

(* ------------------------------------------------------------------- *)
(** *** [start_scheduler], step by step *)

Lemma start_scheduler_eq (func : St World unit) hours (w : World) :
  start_scheduler func hours w =
  let r := func w in
  let w1 := match r.1 with
            | Ok _ => r.2
            | Raise e =>
                with_line r.2 ("Initial scheduled run failed: " +:+ str_exn e)
            end in
  (Ok {| jobs := <["retrain_job" := {| job_func := func;
                                       job_trigger := "interval";
                                       job_hours := hours |}]> ∅;
         running := true |},
   mkWorld (fs w1)
     (stdout w1 ++ ["Scheduler started: retrain every " +:+ pretty hours
                    +:+ " hours"])
     (utcnow w1) (atexit w1 ++ [SchedulerShutdown false])).
Proof.
  unfold start_scheduler, bind at 1, try_except.
  by destruct (func w) as [[[]|e] w1].
Qed.

(* ------------------------------------------------------------------- *)
(** *** Synthetic data and group keys *)



Lemma length_sorted_unique l :
  length (sorted_unique l) = size (list_to_set l : gset string).
Proof.
  unfold sorted_unique. rewrite merge_sort_Permutation.
  rewrite <-(size_list_to_set (C:=gset string)) by apply NoDup_remove_dups.
  f_equal. apply set_eq. intros x.
  by rewrite !elem_of_list_to_set, elem_of_remove_dups.
Qed.

Lemma length_groupby_item_id_agg df cols :
  length (groupby_item_id_agg df cols)
  = size (list_to_set (r_item_id <$> rows df) : gset string).
Proof.
  unfold groupby_item_id_agg. by rewrite length_fmap, length_sorted_unique.
Qed.

Lemma payload_dict_other payload f :
  f ∉ ["session_duration"; "pages_viewed"; "actions"; "hour"] →
  payload_dict payload !! f = None.
Proof.
  intros Hf. unfold payload_dict.
  rewrite !lookup_insert_ne, lookup_singleton_ne; [done|..];
    intros <-; apply Hf; repeat constructor.
Qed.

End Properties.

(* ===================================================================== *)
(** ** The lifecycle properties *)
(* ===================================================================== *)

Section Claims.

Context {PF : PyFloat} {SK : Sklearn} {RNG : NumpyRng}.
Variable here : string.

(** C1 (serve stale on failure).  For each model kind: if a run of
    [train_all] fails for that kind (the data could not be loaded, or the
    kind's training function raises, which it can only do before it saves
    anything), then what serving loads for that kind after the run is what
    it loaded before.  The input path must not be the kind's own artifact
    file. *)
Theorem serve_stale_on_failure k ip (w : World) :
  ip ≠ Some (artifact_path here k) →
  attempt_fails here k ip w →
  (serving_load here k (train_all here ip w).2).1 = (serving_load here k w).1.
Proof.
  intros Hip Hfail. apply serving_load_result.
  by apply train_all_keeps_failed_kind.
Qed.

(** C3, amended.  [train_all] returns normally whenever [get_processed]
    does: every exception of [train_engagement] and [train_recommender] is
    caught inside it.  An exception of [get_processed] is raised to the
    caller of [train_all] unchanged.  [start_scheduler] catches whatever
    its immediate run raises, so it always returns. *)
Theorem train_all_contains_training_errors ip hours (w : World) :
  (train_all here ip w).1 =
    match (get_processed here ip (after_banner w)).1 with
    | Ok _ => Ok tt
    | Raise e => Raise e
    end
  ∧ is_ok (start_scheduler (train_all here ip) hours w).1 = true.
Proof.
  split; [apply train_all_result|]. by rewrite start_scheduler_eq.
Qed.


(** C5.  While no engagement artifact has been published, [predict] raises
    [HTTPException] with status 503 and detail "Engagement model not
    available", for every request, and changes nothing; and it still does
    after a run of [train_all] that failed for the engagement kind. *)
Theorem predict_unavailable payload (w : World) :
  fs w !! artifact_path here Engagement = None →
  predict here payload w =
    (Raise (HTTPException 503 "Engagement model not available"), w)
  ∧ (∀ ip,
       ip ≠ Some (artifact_path here Engagement) →
       attempt_fails here Engagement ip w →
       predict here payload (train_all here ip w).2 =
         (Raise (HTTPException 503 "Engagement model not available"),
          (train_all here ip w).2)).
Proof.
  intros H. split; [by apply predict_raises_503|].
  intros ip Hip Hfail. apply predict_raises_503.
  by rewrite train_all_keeps_failed_kind.
Qed.

(** C6.  On a frame with fewer than two distinct item ids,
    [train_recommender] returns without raising, after printing that it
    skips; it writes no file, so serving loads the same recommender as
    before. *)
Theorem train_recommender_skips df (w : World) :
  (size (list_to_set (r_item_id <$> rows df) : gset string) < 2)%nat →
  train_recommender here df w =
    (Ok tt, with_line w "Not enough items to train recommender; skipping.")
  ∧ fs (train_recommender here df w).2 = fs w
  ∧ (load_recommender here (train_recommender here df w).2).1
    = (load_recommender here w).1.
Proof.
  intros Hlt.
  assert (train_recommender here df w =
    (Ok tt, with_line w "Not enough items to train recommender; skipping."))
    as E.
  { unfold train_recommender. rewrite length_groupby_item_id_agg.
    apply Nat.ltb_lt in Hlt. by rewrite Hlt. }
  rewrite E. split; [done|]. split; [done|].
  by apply (serving_load_result here Recommender).
Qed.

(** C7.  With a recommender artifact published, a request whose [item_id]
    is not given, or is not in the artifact's [items_index], gets the
    first five items of the index: five of them, or all when the index
    holds fewer. *)
Theorem recommend_fallback req (w : World) d nnv items :
  fs w !! artifact_path here Recommender = Some (JoblibFile d) →
  d !! "nn" = Some nnv →
  d !! "items_index" = Some (VList items) →
  (∀ i, item_id req = Some i → i ∉ items) →
  recommend here req w = (Ok {| recommendations := take 5 items |}, w)
  ∧ length (take 5 items) = (5 `min` length items)%nat.
Proof.
  intros Hfile Hnn Hitems Habsent. split; [|apply length_take].
  unfold recommend, load_recommender, bind at 1. unfold artifact_path in Hfile.
  rewrite (load_model_Some _ _ _ Hfile), (truthy_Some _ _ _ Hnn).
  unfold bind, lift, getitem. rewrite Hnn, Hitems.
  destruct (item_id req) as [i|] eqn:Ei; [|done].
  destruct (bool_decide (i = "")); [done|]. simpl.
  by rewrite bool_decide_eq_false_2 by auto.
Qed.

(** C8.  With an engagement artifact published, [predict] builds the row
    with one value per name of the stored [features], in that order: the
    request's value when the request has a field of that name, 0
    otherwise; it hands exactly this row to the stored scaler and the
    result to the stored model, and raises nothing of its own. *)
Theorem predict_defaults_missing_features payload (w : World)
    clf scaler features :
  fs w !! artifact_path here Engagement
    = Some (JoblibFile (engagement_artifact clf scaler features)) →
  let row := (λ f, default (CInt 0) (payload_dict payload !! f)) <$> features in
  predict here payload w =
    (rbind (transform scaler [row]) (λ Xs,
     rbind (predict_proba clf Xs) (λ P,
     rbind (rbind (list_getitem P 0) (λ P0, list_getitem P0 1)) (λ prob,
     Ok {| engagement_probability := prob |}))), w)
  ∧ length row = length features
  ∧ (∀ i f, features !! i = Some f →
       row !! i = Some (default (CInt 0) (payload_dict payload !! f)))
  ∧ (∀ f, f ∉ ["session_duration"; "pages_viewed"; "actions"; "hour"] →
       default (CInt 0) (payload_dict payload !! f) = CInt 0).
Proof.
  intros Hfile row. split; [|split; [|split]].
  - unfold predict, load_engagement, bind at 1 2. unfold artifact_path in Hfile.
    rewrite (load_model_Some _ _ _ Hfile). unfold ret at 1.
    destruct (engagement_artifact_lookup clf scaler features) as (Hf & Hs & Hm).
    rewrite (truthy_Some _ _ _ Hm).
    unfold bind, lift, getitem. rewrite Hf, Hs, Hm. simpl. fold row.
    destruct (transform scaler [row]) as [Xs|e]; simpl; [|done].
    destruct (predict_proba clf Xs) as [P|e]; simpl; [|done].
    by destruct (rbind (list_getitem P 0) _).
  - apply length_fmap.
  - intros i f Hi. unfold row. by rewrite list_lookup_fmap, Hi.
  - intros f Hf. by rewrite payload_dict_other.
Qed.

(** C9.  [start_scheduler func hours] runs [func] once, at once, on the
    world it is called in; whether that run returned or raised, it then
    returns a running scheduler whose only job is ["retrain_job"]: [func]
    on an interval of [hours] hours.  A shutdown hook is registered for
    exit, and shutting that scheduler down stops it. *)
Theorem start_scheduler_runs_then_schedules (func : St World unit) hours
    (w : World) :
  let r := func w in
  ∃ s w',
    start_scheduler func hours w = (Ok s, w')
    ∧ jobs s = {["retrain_job" := {| job_func := func;
                                     job_trigger := "interval";
                                     job_hours := hours |}]}
    ∧ running s = true
    ∧ shutdown s false = Ok {| jobs := jobs s; running := false |}
    ∧ fs w' = fs r.2
    ∧ atexit w' = atexit r.2 ++ [SchedulerShutdown false]
    ∧ stdout w' =
        stdout r.2
        ++ match r.1 with
           | Ok _ => []
           | Raise e => ["Initial scheduled run failed: " +:+ str_exn e]
           end
        ++ ["Scheduler started: retrain every " +:+ pretty hours +:+ " hours"].
Proof.
  intros r. rewrite start_scheduler_eq. fold r.
  eexists _, _. split; [done|]. simpl.
  split; [by rewrite insert_empty|]. split; [done|]. split; [done|].
  destruct r as [[[]|e] w1]; simpl; [done|].
  by rewrite <-app_assoc.
Qed.


End Claims.

(* ===================================================================== *)
(** ** The properties on concrete runs *)
(* ===================================================================== *)

Section Runs.

Import Toy.

(** The neighbours index fails to fit while a recommender from an earlier
    run is published: serving still loads the earlier one. *)
Lemma serve_stale_on_failure_witness :
  None ≠ Some (artifact_path "/app" Recommender)
  ∧ attempt_fails (SK := failing_nn) "/app" Recommender None
      (serving_world Recommender stale_recommender)
  ∧ (serving_load "/app" Recommender
       (train_all "/app" None (serving_world Recommender stale_recommender)).2).1
    = (serving_load "/app" Recommender
         (serving_world Recommender stale_recommender)).1.
Proof.
  assert (attempt_fails (SK := failing_nn) "/app" Recommender None
            (serving_world Recommender stale_recommender)) as Hfail.
  { vm_compute. intros w'. reflexivity. }
  assert (None ≠ Some (artifact_path "/app" Recommender)) as Hne by done.
  split; [exact Hne|]. split; [exact Hfail|].
  exact (serve_stale_on_failure "/app" Recommender None _ Hne Hfail).
Defined.

(** C3, counterexample: the input file exists and is empty; [read_csv]
    raises and [train_all] lets the exception through. *)
Lemma train_all_lets_load_error_escape :
  (train_all (SK := working) "/app" None blank_input_world).1
  = Raise (PyError "EmptyDataError" "No columns to parse from file").
Proof. by_vm. Qed.


(** Nothing is published: the request is answered with 503. *)
Lemma predict_unavailable_witness :
  fs (empty_world (SK := working)) !! artifact_path "/app" Engagement = None
  ∧ predict "/app" sample_payload (empty_world (SK := working))
    = (Raise (HTTPException 503 "Engagement model not available"), empty_world).
Proof.
  split; [by_vm|].
  refine (proj1 (predict_unavailable "/app" sample_payload empty_world _)).
  by_vm.
Defined.

(** Two events on one item: training skips and the published recommender
    stays. *)
Lemma train_recommender_skips_witness :
  (size (list_to_set (r_item_id <$> rows (process one_item)) : gset string) < 2)%nat
  ∧ train_recommender (SK := working) "/app" (process one_item)
      (serving_world Recommender (recommender_of seven_items))
    = (Ok tt,
       with_line (serving_world Recommender (recommender_of seven_items))
         "Not enough items to train recommender; skipping.").
Proof.
  assert (size (list_to_set (r_item_id <$> rows (process one_item))
                : gset string) = 1)%nat as H by by_vm.
  split; [rewrite H; lia|].
  refine (proj1 (train_recommender_skips "/app" (process one_item) _ _)).
  rewrite H; lia.
Defined.

(** An unknown item over seven items gives the first five; no item over
    three items gives the three. *)
Lemma recommend_fallback_witness :
  recommend "/app" unknown_item
    (serving_world Recommender (recommender_of seven_items))
  = (Ok {| recommendations := take 5 seven_items |},
     serving_world Recommender (recommender_of seven_items))
  ∧ recommend "/app" no_item
      (serving_world Recommender (recommender_of ["item_1"; "item_2"; "item_3"]))
    = (Ok {| recommendations := take 5 ["item_1"; "item_2"; "item_3"] |},
       serving_world Recommender (recommender_of ["item_1"; "item_2"; "item_3"])).
Proof.
  split.
  - refine (proj1 (recommend_fallback "/app" unknown_item _
                     (recommender_of seven_items) (VNN (SK := working) []) seven_items _ _ _ _)).
    + by_vm.
    + by_vm.
    + by_vm.
    + intros i [= <-]. apply (bool_decide_unpack _). by vm_compute.
  - refine (proj1 (recommend_fallback "/app" no_item _
                     (recommender_of ["item_1"; "item_2"; "item_3"]) (VNN (SK := working) [])
                     ["item_1"; "item_2"; "item_3"] _ _ _ _)).
    + by_vm.
    + by_vm.
    + by_vm.
    + intros i [=].
Defined.

(** The two one-hot columns of the schema are not fields of the request:
    they are 0 in the row. *)
Lemma predict_defaults_missing_features_witness :
  predict "/app" sample_payload (serving_world Engagement sample_engagement)
  = (Ok {| engagement_probability := (1 # 2)%Q |},
     serving_world Engagement sample_engagement)
  ∧ (λ f, default (CInt 0) (payload_dict sample_payload !! f)) <$> sample_features
    = [CFloat (25 # 2)%Q; CInt 3; CInt 1; CInt 14; CInt 0; CInt 0].
Proof.
  split; [|by_vm].
  refine (proj1 (predict_defaults_missing_features (SK := working) "/app"
                   sample_payload _ tt tt sample_features _)).
  by_vm.
Defined.


End Runs.

(* ===================================================================== *)
(** ** Further lemmas *)
(* ===================================================================== *)

Section Further.

Context {PF : PyFloat} {SK : Sklearn} {RNG : NumpyRng}.
Variable here : string.

(* ------------------------------------------------------------------- *)
(** *** Reading without writing *)

Lemma read_only_ret {A} (a : A) : read_only (ret a).
Proof. done. Qed.

Lemma read_only_raise {A} e : read_only (raise (A := A) e).
Proof. done. Qed.

Lemma read_only_lift {A} (r : result A) : read_only (lift r).
Proof. done. Qed.

Lemma read_only_bind {A B} (m : St World A) (k : A → St World B) :
  read_only m → (∀ a, read_only (k a)) → read_only (bind m k).
Proof.
  intros Hm Hk w. unfold bind. specialize (Hm w).
  destruct (m w) as [[a|e] w1]; simpl in *; subst; [apply Hk|done].
Qed.

Lemma read_only_load_model p : read_only (load_model p).
Proof.
  intros w. unfold load_model, bind, os_path_exists, joblib_load.
  destruct (fs w !! p) as [[]|] eqn:E; simpl; rewrite ?E; done.
Qed.

Lemma read_only_predict payload : read_only (predict here payload).
Proof.
  unfold predict, load_engagement.
  apply read_only_bind.
  { apply read_only_bind; [apply read_only_load_model|].
    intros; apply read_only_ret. }
  intros m. destruct (negb (truthy m)); [apply read_only_raise|].
  repeat (apply read_only_bind; [apply read_only_lift|]; intros ?).
  apply read_only_ret.
Qed.

Lemma read_only_recommend req : read_only (recommend here req).
Proof.
  unfold recommend, load_recommender.
  apply read_only_bind; [apply read_only_load_model|].
  intros m. destruct (negb (truthy m)); [apply read_only_raise|].
  repeat (apply read_only_bind; [apply read_only_lift|]; intros ?).
  apply read_only_ret.
Qed.

(* ------------------------------------------------------------------- *)
(** *** Sorted keys, one-hot rows *)

Lemma NoDup_sorted_unique l : NoDup (sorted_unique l).
Proof.
  unfold sorted_unique. rewrite merge_sort_Permutation. apply NoDup_remove_dups.
Qed.

Lemma elem_of_sorted_unique x l : x ∈ sorted_unique l ↔ x ∈ l.
Proof.
  unfold sorted_unique. by rewrite merge_sort_Permutation, elem_of_remove_dups.
Qed.



Lemma filter_all {A} (P : A → Prop) `{∀ x, Decision (P x)} (l : list A) :
  Forall P l → filter P l = l.
Proof.
  induction 1 as [|x l Hx Hl IH]; [done|].
  by rewrite filter_cons_True, IH.
Qed.

Lemma prefix_cat c : String.prefix "cat_" ("cat_" +:+ c) = true.
Proof. by destruct c. Qed.

Lemma items_index_eq df cols :
  ir_item_id <$> groupby_item_id_agg df cols
  = sorted_unique (r_item_id <$> rows df).
Proof.
  unfold groupby_item_id_agg. rewrite <-list_fmap_compose.
  etrans; [|apply list_fmap_id]. by apply list_fmap_ext.
Qed.

Lemma synthetic_row_bounds now rng :
  let r := (synthetic_row now rng).1 in
  0 ≤ raw_session_duration r ∧ 1 ≤ raw_pages_viewed r ∧ 0 ≤ raw_actions r
  ∧ String.prefix "user_" (raw_user_id r) = true
  ∧ String.prefix "item_" (raw_item_id r) = true.
Proof.
  unfold synthetic_row.
  destruct (integers 1 200 rng) as [u g1].
  destruct (normal 300 120 g1) as [sl g2].
  destruct (normal 5 2 g2) as [pg g3].
  destruct (poisson 3 g3) as [ac g4].
  destruct (integers 1 200 g4) as [it g5].
  destruct (choice _ g5) as [cat g6].
  destruct (integers 0 _ g6) as [mins g7]. simpl.
  split; [lia|]. split; [lia|]. split; [lia|].
  split; [by destruct (pretty u)|by destruct (pretty it)].
Qed.

(* ------------------------------------------------------------------- *)
(** *** Loading the data *)


Lemma get_processed_eq ip (w : World) :
  get_processed here ip w =
  match load_raw here ip w with
  | (Ok df, w1) =>
      (Ok (process df),
       with_file w1 (processed_path here) (ParquetFile (process df)))
  | (Raise e, w1) => (Raise e, w1)
  end.
Proof.
  unfold get_processed, bind at 1.
  by destruct (load_raw here ip w) as [[df|e] w1].
Qed.




Lemma load_raw_existing_world ip (w : World) :
  is_Some (fs w !! data_path here ip) → (load_raw here ip w).2 = w.
Proof.
  intros [f Hf]. unfold load_raw. fold (data_path here ip).
  unfold bind, os_path_exists, read_csv. rewrite Hf. simpl. rewrite Hf.
  by destruct f.
Qed.

(* ------------------------------------------------------------------- *)
(** *** Serving from a published artifact *)

Lemma predict_with_artifact payload (w : World) clf scaler features :
  fs w !! artifact_path here Engagement
    = Some (JoblibFile (engagement_artifact clf scaler features)) →
  predict here payload w
  = (score_row clf scaler (feature_row payload features), w).
Proof.
  intros Hfile.
  unfold predict, load_engagement, bind at 1 2. unfold artifact_path in Hfile.
  rewrite (load_model_Some _ _ _ Hfile). unfold ret at 1.
  destruct (engagement_artifact_lookup clf scaler features) as (Hf & Hs & Hm).
  rewrite (truthy_Some _ _ _ Hm).
  unfold bind, lift, getitem. rewrite Hf, Hs, Hm. simpl.
  unfold score_row, feature_row.
  destruct (transform scaler _) as [Xs|e]; simpl; [|done].
  destruct (predict_proba clf Xs) as [P|e]; simpl; [|done].
  by destruct (rbind (list_getitem P 0) _).
Qed.

Lemma recommend_else (req : RecommendRequest) (w : World) d nnv items :
  fs w !! artifact_path here Recommender = Some (JoblibFile d) →
  d !! "nn" = Some nnv →
  d !! "items_index" = Some (VList items) →
  (∀ i, item_id req = Some i → i = "" ∨ i ∉ items) →
  recommend here req w = (Ok {| recommendations := take 5 items |}, w).
Proof.
  intros Hfile Hnn Hitems Habsent.
  unfold recommend, load_recommender, bind at 1. unfold artifact_path in Hfile.
  rewrite (load_model_Some _ _ _ Hfile), (truthy_Some _ _ _ Hnn).
  unfold bind, lift, getitem. rewrite Hnn, Hitems.
  destruct (item_id req) as [i|] eqn:Ei; [|done].
  destruct (decide (i = "")) as [->|Hne]; [done|].
  rewrite (bool_decide_eq_false_2 _ Hne). simpl.
  destruct (Habsent i eq_refl) as [?|Hi]; [done|].
  by rewrite (bool_decide_eq_false_2 _ Hi).
Qed.

Lemma recommender_artifact_lookup nn items cols :
  recommender_artifact nn items cols !! "nn" = Some (VNN nn)
  ∧ recommender_artifact nn items cols !! "items_index" = Some (VList items).
Proof. by unfold recommender_artifact; simplify_map_eq. Qed.

Lemma index_of_elem x l :
  x ∈ l → ∃ idx, index_of x l = Some idx ∧ l !! idx = Some x
                 ∧ ∀ j, (j < idx)%nat → l !! j ≠ Some x.
Proof.
  induction l as [|y l IH]; [by intros ?%elem_of_nil|]. intros Hx. simpl.
  destruct (decide (x = y)) as [->|Hne].
  - rewrite bool_decide_eq_true_2 by done. exists 0%nat.
    split; [done|]. split; [done|]. intros; lia.
  - rewrite bool_decide_eq_false_2 by done.
    apply elem_of_cons in Hx as [?|Hx]; [done|].
    destruct (IH Hx) as (idx & -> & Hl & Hmin). exists (S idx).
    split; [done|]. split; [done|].
    intros [|j] Hj; simpl; [congruence|]. apply Hmin. lia.
Qed.

Lemma list_comp_Ok {A} (l : list A) ns ps :
  list_comp (list_getitem l) ns = Ok ps → Forall2 (λ p n, l !! n = Some p) ps ns.
Proof.
  revert ps. induction ns as [|n ns IH]; simpl; intros ps.
  { intros [= <-]. constructor. }
  unfold list_getitem at 1. destruct (l !! n) as [p|] eqn:E; simpl; [|done].
  destruct (list_comp (list_getitem l) ns) as [ps'|e]; simpl; [|done].
  intros [= <-]. constructor; [done|]. by apply IH.
Qed.

(* ------------------------------------------------------------------- *)
(** *** What [train_all] may write *)

Lemma keeps_train_all p ip :
  p ∉ pipeline_paths here ip → keeps p (train_all here ip).
Proof.
  unfold pipeline_paths. intros Hp.
  assert (p ≠ data_path here ip ∧ p ≠ processed_path here
          ∧ p ≠ artifact_path here Engagement
          ∧ p ≠ artifact_path here Recommender) as (H1 & H2 & H3 & H4).
  { rewrite !not_elem_of_cons in Hp. tauto. }
  unfold train_all.
  apply keeps_bind; [apply keeps_print|]. intros _.
  apply keeps_bind; [by apply keeps_get_processed|]. intros df.
  apply keeps_bind; [apply keeps_ret|]. intros _.
  apply keeps_try_except; [|intros; apply keeps_print].
  apply keeps_bind; [by apply (keeps_trainer here p Engagement)|]. intros _.
  apply keeps_bind; [by apply (keeps_trainer here p Recommender)|]. intros _.
  apply keeps_print.
Qed.

End Further.

(* ===================================================================== *)
(** ** Further properties of the pipeline *)
(* ===================================================================== *)

Section FurtherProperties.

Context {PF : PyFloat} {SK : Sklearn} {RNG : NumpyRng}.
Variable here : string.



(** X3.  When no recommender file exists, or the file holds an empty
    dictionary, [recommend] raises [HTTPException] 503 "Recommender not
    available" for every request. *)
Theorem recommend_unavailable req (w : World) :
  fs w !! artifact_path here Recommender = None
  ∨ fs w !! artifact_path here Recommender = Some (JoblibFile ∅) →
  recommend here req w
  = (Raise (HTTPException 503 "Recommender not available"), w).
Proof.
  unfold artifact_path.
  intros [H|H]; unfold recommend, load_recommender, bind at 1.
  - by rewrite (load_model_None _ _ H).
  - by rewrite (load_model_Some _ _ _ H).
Qed.

(** X4.  For a request whose item is in the index, every answer of
    [recommend] comes from [kneighbors] on the stored row at the item's
    first position in the index: the answer lists, in order, the index
    entries at the neighbour positions of the first result row. *)
Theorem recommend_known_item (req : RecommendRequest) (w : World)
    d nn items i picks :
  fs w !! artifact_path here Recommender = Some (JoblibFile d) →
  d !! "nn" = Some (VNN nn) →
  d !! "items_index" = Some (VList items) →
  item_id req = Some i →
  i ≠ "" →
  i ∈ items →
  (recommend here req w).1 = Ok {| recommendations := picks |} →
  ∃ idx dists nbrs nbrs0,
    items !! idx = Some i
    ∧ (∀ j, (j < idx)%nat → items !! j ≠ Some i)
    ∧ kneighbors nn (take 1 (drop idx (_fit_X nn))) = Ok (dists, nbrs)
    ∧ nbrs !! 0%nat = Some nbrs0
    ∧ Forall2 (λ p n, items !! n = Some p) picks nbrs0.
Proof.
  intros Hfile Hnn Hitems Hreq Hne Hin.
  unfold recommend, load_recommender, bind at 1. unfold artifact_path in Hfile.
  rewrite (load_model_Some _ _ _ Hfile), (truthy_Some _ _ _ Hnn).
  unfold bind, lift, getitem. rewrite Hnn, Hitems, Hreq.
  rewrite (bool_decide_eq_false_2 _ Hne). simpl.
  rewrite (bool_decide_eq_true_2 _ Hin). simpl.
  destruct (index_of_elem i items Hin) as (idx & -> & Hidx & Hmin). simpl.
  destruct (kneighbors nn _) as [[dists nbrs]|e] eqn:Ek; simpl; [|done].
  unfold list_getitem at 1.
  destruct (nbrs !! 0%nat) as [nbrs0|] eqn:E0; simpl; [|done].
  destruct (list_comp (list_getitem items) nbrs0) as [ps|e] eqn:Ec; simpl;
    [|done].
  intros [= <-]. exists idx, dists, nbrs, nbrs0.
  split; [done|]. split; [done|]. split; [done|]. split; [done|].
  by apply list_comp_Ok.
Qed.

(** X5.  [predict] and [recommend] never change the world: whatever they
    answer, files, output, clock and exit hooks are as before. *)
Theorem serving_is_read_only payload req (w : World) :
  (predict here payload w).2 = w ∧ (recommend here req w).2 = w.
Proof. split; [apply read_only_predict|apply read_only_recommend]. Qed.


(** X7.  On a processed frame the engagement schema is the four request
    fields followed by the one-hot columns, the recommender's [cat_cols]
    are exactly the one-hot columns, and no column name occurs twice. *)
Theorem process_schema (df : list RawRow) :
  features_of (process df)
  = ["session_duration"; "pages_viewed"; "actions"; "hour"]
    ++ dummy_columns (process df)
  ∧ cat_cols_of (process df) = dummy_columns (process df)
  ∧ NoDup (columns (process df)).
Proof.
  assert (Forall (λ c, String.prefix "cat_" c = true)
            (dummy_columns (process df))) as Hcat.
  { unfold process. simpl. apply Forall_fmap, Forall_forall.
    intros c _. apply prefix_cat. }
  split; [|split].
  - unfold features_of, columns. rewrite filter_app. f_equal.
    apply filter_all. eapply Forall_impl; [exact Hcat|].
    intros c Hc Hin. simpl in Hc.
    repeat (apply elem_of_cons in Hin as [->|Hin]; [done|]).
    by apply elem_of_nil in Hin.
  - unfold cat_cols_of, columns. rewrite filter_app.
    replace (filter _ base_columns) with (@nil string) by done.
    simpl. apply filter_all. eapply Forall_impl; [exact Hcat|].
    intros c Hc. by rewrite Hc.
  - unfold columns. apply NoDup_app. split; [|split].
    + unfold base_columns. apply (bool_decide_unpack _). by vm_compute.
    + intros c Hc Hin. rewrite Forall_forall in Hcat. specialize (Hcat c Hin).
      unfold base_columns in Hc.
      repeat (apply elem_of_cons in Hc as [->|Hc]; [done|]).
      by apply elem_of_nil in Hc.
    + unfold process. simpl.
      apply NoDup_fmap; [apply _|apply NoDup_sorted_unique].
Qed.


(** X9.  Whatever the generator draws, every synthetic row has a session
    duration of at least 0, at least one page, at least 0 actions, and ids
    that start with "user_" and "item_". *)
Theorem synthetic_rows_bounds n now rng r :
  r ∈ synthetic_rows n now rng →
  0 ≤ raw_session_duration r ∧ 1 ≤ raw_pages_viewed r ∧ 0 ≤ raw_actions r
  ∧ String.prefix "user_" (raw_user_id r) = true
  ∧ String.prefix "item_" (raw_item_id r) = true.
Proof.
  revert rng. induction n as [|n IH]; intros rng; simpl.
  { by intros ?%elem_of_nil. }
  pose proof (synthetic_row_bounds now rng) as Hb.
  destruct (synthetic_row now rng) as [r0 rng'].
  intros [->|Hin]%elem_of_cons; [exact Hb|by eapply IH].
Qed.



(** X12.  Once the data is loaded, the last line a run prints is "Training
    complete." when both training functions returned, and otherwise
    "Training failed: " followed by the message of the first one that
    raised. *)
Theorem train_all_last_line ip (w : World) df w1 :
  get_processed here ip (after_banner w) = (Ok df, w1) →
  last (stdout (train_all here ip w).2) = Some (verdict here df w1).
Proof.
  intros Hgp. rewrite train_all_unfold, Hgp. unfold verdict, try_except, bind.
  destruct (train_engagement here df w1) as [[[]|e] w2]; simpl.
  - rewrite (train_recommender_result here df w1 w2).
    destruct (train_recommender here df w2) as [[[]|e] w3]; simpl;
      by rewrite last_snoc.
  - by rewrite last_snoc.
Qed.

(** X13.  A run in which the engagement model trains and the recommender
    then raises still returns normally and reports "Training failed", yet
    it has replaced the engagement artifact by the new one; the recommender
    file is untouched. *)
Theorem failed_run_may_publish_engagement ip (w : World) df w1 :
  get_processed here ip (after_banner w) = (Ok df, w1) →
  is_ok (train_engagement here df w1).1 = true →
  is_ok (train_recommender here df w1).1 = false →
  (train_all here ip w).1 = Ok tt
  ∧ (∃ clf scaler,
       fs (train_all here ip w).2 !! artifact_path here Engagement
       = Some (JoblibFile (engagement_artifact clf scaler (features_of df))))
  ∧ fs (train_all here ip w).2 !! artifact_path here Recommender
    = fs w1 !! artifact_path here Recommender
  ∧ (∃ e, last (stdout (train_all here ip w).2)
          = Some ("Training failed: " +:+ str_exn e)).
Proof.
  intros Hgp Heng Hrec.
  split. { by rewrite train_all_result, Hgp. }
  rewrite train_all_unfold, Hgp. unfold try_except, bind.
  pose proof (train_engagement_cases here df w1) as He.
  destruct (train_engagement here df w1) as [[[]|e] w2]; simpl in *; [|done].
  destruct He as (clf & scaler & acc & Hw2).
  rewrite (train_recommender_result here df w1 w2) in Hrec.
  destruct (train_recommender here df w2) as [[[]|e] w3] eqn:Er; simpl in *;
    [done|].
  apply (trainer_raise_world here Recommender) in Er as ->. subst w2. simpl.
  split; [|split].
  - exists clf, scaler. apply lookup_insert_eq.
  - rewrite lookup_insert_ne; [done|].
    intros E. by pose proof (artifact_path_inj here Engagement Recommender E).
  - exists e. by rewrite last_snoc.
Qed.

(** X14.  The item index [train_recommender] publishes lists every item id
    of the frame exactly once, in ascending order; it is published only
    when it has at least two entries. *)
Theorem published_items_index df (w : World) :
  let idx := sorted_unique (r_item_id <$> rows df) in
  NoDup idx ∧ Sorted String.le idx ∧ (∀ x, x ∈ idx ↔ x ∈ r_item_id <$> rows df)
  ∧ match train_recommender here df w with
    | (Ok _, w') =>
        (length idx < 2)%nat ∧ fs w' = fs w
        ∨ (2 ≤ length idx)%nat ∧ ∃ nn,
            fs w' !! artifact_path here Recommender
            = Some (JoblibFile (recommender_artifact nn idx (cat_cols_of df)))
    | (Raise _, _) => True
    end.
Proof.
  intros idx. split; [apply NoDup_sorted_unique|].
  split; [apply (Sorted_merge_sort String.le)|].
  split; [intros x; apply elem_of_sorted_unique|].
  pose proof (train_recommender_cases here df w) as H. simpl in H.
  rewrite items_index_eq in H.
  assert (length (groupby_item_id_agg df (cat_cols_of df)) = length idx) as El.
  { unfold idx. by rewrite <-(items_index_eq df (cat_cols_of df)), length_fmap. }
  rewrite El in H.
  destruct (train_recommender here df w) as [[[]|e] w']; [|done].
  destruct H as [[Hlt ->]|[Hge [nn ->]]]; [by left|right].
  split; [done|]. exists nn. simpl. apply lookup_insert_eq.
Qed.

(** X15.  When the stored model's [predict_proba] has fewer than two
    columns, [predict] raises [IndexError] instead of answering. *)
Theorem predict_single_column_proba payload (w : World)
    clf scaler features Xs P p0 :
  fs w !! artifact_path here Engagement
    = Some (JoblibFile (engagement_artifact clf scaler features)) →
  transform scaler [feature_row payload features] = Ok Xs →
  predict_proba clf Xs = Ok P →
  P !! 0%nat = Some p0 →
  (length p0 < 2)%nat →
  predict here payload w
  = (Raise (PyError "IndexError" "index out of range"), w).
Proof.
  intros Hfile Ht Hp HP Hlen.
  rewrite (predict_with_artifact here _ _ _ _ _ Hfile).
  unfold score_row, list_getitem. rewrite Ht. simpl. rewrite Hp. simpl.
  rewrite HP. simpl. by rewrite lookup_ge_None_2 by lia.
Qed.

(** X16.  For every module directory, the default input file, the processed
    file and the two artifact files are four different paths. *)
Theorem pipeline_paths_distinct : NoDup (pipeline_paths here None).
Proof.
  unfold pipeline_paths.
  rewrite default_data_path_eq, processed_path_eq, !artifact_path_eq.
  apply (NoDup_fmap_2 (String.append (os_path.prefix_of here))
    ["data/user_behavior.csv"; "data/processed.parquet";
     "models/engagement.joblib"; "models/recommender.joblib"]).
  apply (bool_decide_unpack _). by vm_compute.
Qed.


(** X18.  After [train_recommender] has returned on a frame with at least
    two items, a request without an item, or with an item the frame does
    not have, gets the first five item ids in ascending order. *)
Theorem recommend_after_training df req (w w' : World) :
  train_recommender here df w = (Ok tt, w') →
  (2 ≤ size (list_to_set (r_item_id <$> rows df) : gset string))%nat →
  (∀ i, item_id req = Some i → i ∉ r_item_id <$> rows df) →
  recommend here req w'
  = (Ok {| recommendations := take 5 (sorted_unique (r_item_id <$> rows df)) |},
     w').
Proof.
  intros E Hsz Habsent.
  pose proof (train_recommender_cases here df w) as H. simpl in H.
  rewrite E, length_groupby_item_id_agg, items_index_eq in H.
  destruct H as [[Hlt _]|[_ [nn ->]]]; [lia|].
  destruct (recommender_artifact_lookup nn
    (sorted_unique (r_item_id <$> rows df)) (cat_cols_of df)) as [Hnn Hit].
  eapply recommend_else; [|exact Hnn|exact Hit|].
  - simpl. apply lookup_insert_eq.
  - intros i Hi. right. intros Hin. apply (Habsent i Hi).
    by apply elem_of_sorted_unique.
Qed.

(** X19.  A run of [train_all] changes no file other than its input file,
    the processed file and the two artifact files. *)
Theorem train_all_writes_only ip p (w : World) :
  p ∉ pipeline_paths here ip →
  fs (train_all here ip w).2 !! p = fs w !! p.
Proof. intros Hp. by apply keeps_train_all. Qed.

(** X20.  An input file that exists is never modified by a run of
    [train_all], whether it could be read or not (the input path being none
    of the files the run writes). *)
Theorem train_all_keeps_existing_input ip (w : World) :
  NoDup (pipeline_paths here ip) →
  is_Some (fs w !! data_path here ip) →
  fs (train_all here ip w).2 !! data_path here ip = fs w !! data_path here ip.
Proof.
  unfold pipeline_paths. intros Hnd Hex.
  apply NoDup_cons in Hnd as [Hnotin _].
  rewrite !not_elem_of_cons in Hnotin. destruct Hnotin as (H2 & H3 & H4 & _).
  rewrite train_all_unfold, get_processed_eq.
  pose proof (load_raw_existing_world here ip (after_banner w) Hex) as Hw.
  destruct (load_raw here ip (after_banner w)) as [[df|e] w1]; simpl in Hw; subst;
    [|done].
  assert (keeps (data_path here ip)
            (try_except
               (train_engagement here (process df);;
                train_recommender here (process df);;
                print "Training complete.")
               (λ e, print ("Training failed: " +:+ str_exn e)))) as Hk.
  { apply keeps_try_except; [|intros; apply keeps_print].
    apply keeps_bind; [by apply (keeps_trainer here _ Engagement)|]. intros _.
    apply keeps_bind; [by apply (keeps_trainer here _ Recommender)|]. intros _.
    apply keeps_print. }
  rewrite Hk. simpl. by rewrite lookup_insert_ne.
Qed.

(** X21.  An empty string as [item_id] counts as no item: [recommend]
    answers with the first five index entries even when the index itself
    contains the empty string. *)
Theorem recommend_empty_item_id (req : RecommendRequest) (w : World)
    d nnv items :
  fs w !! artifact_path here Recommender = Some (JoblibFile d) →
  d !! "nn" = Some nnv →
  d !! "items_index" = Some (VList items) →
  item_id req = Some "" →
  recommend here req w = (Ok {| recommendations := take 5 items |}, w).
Proof.
  intros Hfile Hnn Hitems Hreq. eapply recommend_else; [done..|].
  intros i Hi. left. congruence.
Qed.

(** X22.  When it fits the neighbours index, [train_recommender] asks for
    [min(10, n - 1)] neighbours, [n] being the number of items: at least
    one, at most ten, and fewer than there are items; whether it raises is
    whether that fit raises. *)
Theorem train_recommender_neighbours df (w : World) :
  let items := groupby_item_id_agg df (cat_cols_of df) in
  let k := Z.min 10 (Z.of_nat (length items) - 1) in
  (2 ≤ length items)%nat →
  1 ≤ k ≤ 10 ∧ k < Z.of_nat (length items)
  ∧ is_ok (train_recommender here df w).1
    = is_ok (nn_fit k "cosine" (fillna 0 (ir_cats <$> items))).
Proof.
  intros items k Hn. split; [lia|]. split; [lia|].
  unfold train_recommender. fold (cat_cols_of df). fold items.
  apply Nat.ltb_ge in Hn. rewrite Hn. unfold bind, lift. fold k.
  by destruct (nn_fit k "cosine" _).
Qed.

(** X23.  For every frame, the schema [train_engagement] stores is a
    subsequence of the frame's columns that contains neither the label nor
    the user, item and timestamp columns. *)
Theorem engagement_schema_excludes_label df (w : World) c :
  c ∈ ["user_id"; "item_id"; "timestamp"; "engaged"] →
  (c ∉ features_of df)
  ∧ features_of df `sublist_of` columns df
  ∧ match train_engagement here df w with
    | (Ok _, w') =>
        ∃ clf scaler,
          fs w' !! artifact_path here Engagement
          = Some (JoblibFile (engagement_artifact clf scaler (features_of df)))
    | (Raise _, _) => True
    end.
Proof.
  intros Hc. split; [|split].
  - unfold features_of. intros [Hn _]%list_elem_of_filter. done.
  - apply sublist_filter.
  - pose proof (train_engagement_cases here df w) as H.
    destruct (train_engagement here df w) as [[[]|e] w']; [|done].
    destruct H as (clf & scaler & acc & ->). exists clf, scaler.
    simpl. apply lookup_insert_eq.
Qed.

End FurtherProperties.

(* ===================================================================== *)
(** ** The further properties on concrete runs *)
(* ===================================================================== *)

Section FurtherRuns.

Import Toy Cases.

(** Nothing is published: the recommendation request is answered with 503. *)
Lemma recommend_unavailable_witness :
  recommend "/app" no_item (empty_world (SK := working))
  = (Raise (HTTPException 503 "Recommender not available"), empty_world).
Proof. apply recommend_unavailable. left. by_vm. Defined.

(** "item_2" is second in the index; the neighbour of its row is position 0,
    so the answer is "item_1". *)
Lemma recommend_known_item_witness :
  ∃ idx dists nbrs nbrs0,
    three_items !! idx = Some "item_2"
    ∧ (∀ j, (j < idx)%nat → three_items !! j ≠ Some "item_2")
    ∧ kneighbors (Sklearn := working)
        [[CBool true]; [CBool false]; [CBool true]]
        (take 1 (drop idx [[CBool true]; [CBool false]; [CBool true]]))
      = Ok (dists, nbrs)
    ∧ nbrs !! 0%nat = Some nbrs0
    ∧ Forall2 (λ p n, three_items !! n = Some p) ["item_1"] nbrs0.
Proof.
  refine (recommend_known_item (SK := working) "/app" known_item
            (serving_world Recommender fitted_recommender) fitted_recommender
            [[CBool true]; [CBool false]; [CBool true]] three_items "item_2"
            ["item_1"] _ _ _ _ _ _ _).
  - by_vm.
  - by_vm.
  - by_vm.
  - reflexivity.
  - discriminate.
  - apply (bool_decide_unpack _). by vm_compute.
  - by_vm.
Defined.



(** The first row drawn by the sample generator. *)
Lemma synthetic_rows_bounds_witness :
  let r := (synthetic_row 0 (default_rng 42)).1 in
  0 ≤ raw_session_duration r ∧ 1 ≤ raw_pages_viewed r ∧ 0 ≤ raw_actions r
  ∧ String.prefix "user_" (raw_user_id r) = true
  ∧ String.prefix "item_" (raw_item_id r) = true.
Proof.
  intros r. apply (synthetic_rows_bounds 2 0 (default_rng 42) r).
  apply (list_elem_of_lookup_2 _ 0%nat). by_vm.
Defined.


(** Both kinds train on the three events: the run ends with "Training
    complete." *)
Lemma train_all_last_line_witness :
  last (stdout (train_all (SK := working) "/app" None fresh_world).2)
  = Some "Training complete.".
Proof.
  assert (get_processed (SK := working) "/app" None (after_banner fresh_world)
          = (Ok (process two_items), processed_world)) as Hgp by by_vm.
  rewrite (train_all_last_line "/app" None fresh_world _ _ Hgp). by_vm.
Defined.

(** The neighbours index fails to fit after the engagement model was saved. *)
Lemma failed_run_may_publish_engagement_witness :
  (train_all (SK := failing_nn) "/app" None fresh_world).1 = Ok tt
  ∧ is_Some (fs (train_all (SK := failing_nn) "/app" None fresh_world).2
               !! artifact_path "/app" Engagement)
  ∧ fs (train_all (SK := failing_nn) "/app" None fresh_world).2
      !! artifact_path "/app" Recommender = None.
Proof.
  assert (get_processed (SK := failing_nn) "/app" None (after_banner fresh_world)
          = (Ok (process two_items), processed_world)) as Hgp by by_vm.
  destruct (failed_run_may_publish_engagement (SK := failing_nn) "/app" None
              fresh_world _ _ Hgp) as (H1 & (clf & scaler & H2) & H3 & _).
  - by_vm.
  - by_vm.
  - split; [exact H1|]. split; [by rewrite H2|]. rewrite H3. by_vm.
Defined.

(** A model that knows one class: the request ends in [IndexError]. *)
Lemma predict_single_column_proba_witness :
  predict (SK := one_class) "/app" sample_payload
    (serving_world Engagement one_class_engagement)
  = (Raise (PyError "IndexError" "index out of range"),
     serving_world Engagement one_class_engagement).
Proof.
  refine (predict_single_column_proba (SK := one_class) "/app" sample_payload _
            tt tt sample_features
            [feature_row sample_payload sample_features] [[1%Q]] [1%Q]
            _ _ _ _ _).
  - by_vm.
  - by_vm.
  - by_vm.
  - reflexivity.
  - simpl. lia.
Defined.


(** After training on the three events, an unknown item gets both items. *)
Lemma recommend_after_training_witness :
  recommend (SK := working) "/app" unknown_item
    (train_recommender "/app" (process two_items) fresh_world).2
  = (Ok {| recommendations :=
             take 5 (sorted_unique (r_item_id <$> rows (process two_items))) |},
     (train_recommender "/app" (process two_items) fresh_world).2).
Proof.
  apply (recommend_after_training (SK := working) "/app" (process two_items)
           unknown_item fresh_world).
  - by_vm.
  - assert (size (list_to_set (r_item_id <$> rows (process two_items))
                  : gset string) = 2%nat) as -> by by_vm.
    lia.
  - intros i [= <-]. apply (bool_decide_unpack _). by vm_compute.
Defined.

(** A file outside the pipeline's four paths is left alone. *)
Lemma train_all_writes_only_witness :
  fs (train_all (SK := working) "/app" None fresh_world).2 !! "/app/notes.txt"
  = fs (fresh_world (SK := working)) !! "/app/notes.txt".
Proof.
  apply train_all_writes_only. apply (bool_decide_unpack _). by vm_compute.
Defined.

(** The input file of [fresh_world] is the same after a run. *)
Lemma train_all_keeps_existing_input_witness :
  fs (train_all (SK := working) "/app" None fresh_world).2
    !! data_path "/app" None
  = fs (fresh_world (SK := working)) !! data_path "/app" None.
Proof.
  apply train_all_keeps_existing_input.
  - apply (bool_decide_unpack _). by vm_compute.
  - exists (CsvFile two_items). by_vm.
Defined.

(** An empty item id over three items: the three are returned. *)
Lemma recommend_empty_item_id_witness :
  recommend "/app" empty_item (serving_world Recommender fitted_recommender)
  = (Ok {| recommendations := take 5 three_items |},
     serving_world Recommender fitted_recommender).
Proof.
  refine (recommend_empty_item_id (SK := working) "/app" empty_item _
            fitted_recommender
            (VNN (SK := working) [[CBool true]; [CBool false]; [CBool true]])
            three_items _ _ _ _).
  - by_vm.
  - by_vm.
  - by_vm.
  - reflexivity.
Defined.

(** Two items: one neighbour is asked for. *)
Lemma train_recommender_neighbours_witness :
  Z.min 10 (Z.of_nat (length (groupby_item_id_agg (process two_items)
                                (cat_cols_of (process two_items)))) - 1) = 1
  ∧ is_ok (train_recommender (SK := working) "/app" (process two_items)
             fresh_world).1 = true.
Proof.
  assert (length (groupby_item_id_agg (PF := toy_float) (process two_items)
                    (cat_cols_of (process two_items))) = 2%nat) as Hlen by by_vm.
  split; [by rewrite Hlen|].
  destruct (train_recommender_neighbours (SK := working) "/app"
              (process two_items) fresh_world) as (_ & _ & ->).
  - rewrite Hlen. lia.
  - by_vm.
Defined.

(** The label column is not in the schema of the three events. *)
Lemma engagement_schema_excludes_label_witness :
  "engaged" ∉ features_of (process two_items).
Proof.
  refine (proj1 (engagement_schema_excludes_label (SK := working) "/app"
                   (process two_items) fresh_world "engaged" _)).
  apply (bool_decide_unpack _). by vm_compute.
Defined.

End FurtherRuns.
